(** * researcher-agent: the web front end and the approval workflow

    Shallow embedding of [frontend/src/api.js] ([runAgent]) and of the React
    component [App] (its state, [handleSubmit], [handleSend],
    [handleDownload], the draft text area and the form), followed by the
    properties of the approval workflow that are checked against them.

    JavaScript strings are written as Rocq strings holding their UTF-8
    encoding; JSON numbers are IEEE 754 doubles (Rocq's primitive floats). *)

From Stdlib Require Import List String Ascii ZArith Bool Lia.
From Stdlib Require Import DecimalString.
From Stdlib Require Floats.
Import ListNotations.
Local Open Scope string_scope.
Set Warnings "-register-all".

(** ** JavaScript values obtained from JSON *)

Module Js.

(** What [JSON.parse] / [response.json()] can produce.  A number is an
    IEEE 754 double.  The member list of an object is kept in the order of
    the JSON text. *)
Inductive val : Type :=
| VNull : val
| VBool : bool -> val
| VNum : PrimFloat.float -> val
| VStr : string -> val
| VArr : list val -> val
| VObj : list (string * val) -> val.

(** A thrown [Error]; only its [message] is read by the program. *)
Record Error : Type := mkError { message : string }.

(** A computation that either throws or completes. *)
Inductive result (A : Type) : Type :=
| Throw : Error -> result A
| Ok : A -> result A.
Arguments Throw {A} _.
Arguments Ok {A} _.

(** ToBoolean of a number: [+0], [-0] and [NaN] are falsy. *)
Definition number_truthy (x : PrimFloat.float) : bool :=
  negb (PrimFloat.eqb x PrimFloat.zero) && PrimFloat.eqb x x.

(** ToBoolean: [null], [false], zero, [NaN] and the empty string are falsy;
    arrays and objects are always truthy. *)
Definition truthy (v : val) : bool :=
  match v with
  | VNull => false
  | VBool b => b
  | VNum x => number_truthy x
  | VStr s => negb (s =? "")
  | VArr _ => true
  | VObj _ => true
  end.

(** ToBoolean of a property read, where [None] stands for [undefined]. *)
Definition truthy_opt (o : option val) : bool :=
  match o with
  | None => false
  | Some v => truthy v
  end.

(** The JavaScript expression [a || b]. *)
Definition or_else (a : option val) (b : val) : val :=
  match a with
  | Some v => if truthy v then v else b
  | None => b
  end.

Definition string_of_Z (n : Z) : string :=
  NilZero.string_of_int (Z.to_int n).

Fixpoint join (sep : string) (l : list string) : string :=
  match l with
  | [] => ""
  | [x] => x
  | x :: rest => x ++ sep ++ join sep rest
  end.

(** *** Number::toString

    A finite non-zero double is [m * 2^e] up to sign.  Comparisons of
    rationals are made on integers, by cross multiplication. *)

(** [a / b ?= c / d] for positive denominators. *)
Definition cmpq (a b c d : Z) : comparison := (a * d ?= c * b)%Z.
Definition pow2 (e : Z) : Z := (2 ^ (Z.max e 0))%Z.
Definition pow10 (e : Z) : Z := (10 ^ (Z.max e 0))%Z.

(** The least [n], searched upwards from [n], with [num / den < 10^n]. *)
Fixpoint decimal_exponent (fuel : nat) (num den n : Z) : Z :=
  match fuel with
  | O => n
  | S fuel' =>
      match cmpq num den (pow10 n) (pow10 (- n)) with
      | Lt => n
      | _ => decimal_exponent fuel' num den (n + 1)
      end
  end.

(** Whether the decimal [s * 10^p] is read back as the double [m * 2^e]:
    it lies between the midpoints to the neighbouring doubles, the
    midpoints included when [m] is even (round half to even).  The lower
    neighbour is half as far when [m] is the least mantissa of a binade
    above the subnormals.  Quantities are counted in units of [2^(e-2)]. *)
Definition rounds_to (m e s p : Z) : bool :=
  (let low := if (m =? 2 ^ 52) && (-1074 <? e) then 4 * m - 1 else 4 * m - 2 in
   let high := 4 * m + 2 in
   let vn := s * pow10 p in
   let vd := pow10 (- p) in
   let above := cmpq vn vd (low * pow2 (e - 2)) (pow2 (2 - e)) in
   let below := cmpq vn vd (high * pow2 (e - 2)) (pow2 (2 - e)) in
   (match above with Gt => true | Eq => Z.even m | Lt => false end)
   && (match below with Lt => true | Eq => Z.even m | Gt => false end))%Z.

(** Among the two [k]-digit decimals next to [m * 2^e] (of decimal exponent
    [n0]), one that is read back as that double, the closer one if both
    are, the even one on a tie. *)
Definition candidate (m e n0 k : Z) : option Z :=
  (let p := n0 - k in
   let lo := (m * pow2 e * pow10 (- p)) / (pow2 (- e) * pow10 p) in
   let hi := lo + 1 in
   match rounds_to m e lo p, rounds_to m e hi p with
   | true, false => Some lo
   | false, true => Some hi
   | false, false => None
   | true, true =>
       match cmpq (2 * m * pow2 e) (pow2 (- e)) ((2 * lo + 1) * pow10 p) (pow10 (- p)) with
       | Lt => Some lo
       | Gt => Some hi
       | Eq => if Z.even lo then Some lo else Some hi
       end
   end)%Z.

(** The digits [s], their number [k] (as small as possible, from [k] on)
    and the exponent [n] with [s * 10^(n-k)] read back as [m * 2^e].
    Seventeen digits always suffice. *)
Fixpoint shortest (fuel : nat) (m e n0 k : Z) : Z * Z * Z :=
  match fuel with
  | O => (((m * pow2 e * pow10 (k - n0)) / (pow2 (- e) * pow10 (n0 - k)))%Z, k, n0)
  | S fuel' =>
      match candidate m e n0 k with
      | Some s =>
          if (s =? 10 ^ k)%Z then ((10 ^ (k - 1))%Z, k, (n0 + 1)%Z) else (s, k, n0)
      | None => shortest fuel' m e n0 (k + 1)%Z
      end
  end.

Fixpoint zeros (n : nat) : string :=
  match n with
  | O => ""
  | S n' => "0" ++ zeros n'
  end.

(** Number::toString for the positive finite double [m * 2^e]. *)
Definition finite_to_string (m e : Z) : string :=
  let n0 := decimal_exponent 8 (m * pow2 e)%Z (pow2 (- e))
              (((Z.log2 m + e) * 30103) / 100000 - 1)%Z in
  let '(s, k, n) := shortest 17 m e n0 1%Z in
  let digits := string_of_Z s in
  if ((k <=? n) && (n <=? 21))%Z then digits ++ zeros (Z.to_nat (n - k))
  else if ((0 <? n) && (n <=? 21))%Z then
    substring 0 (Z.to_nat n) digits ++ "."
    ++ substring (Z.to_nat n) (Z.to_nat (k - n)) digits
  else if ((-6 <? n) && (n <=? 0))%Z then "0." ++ zeros (Z.to_nat (- n)) ++ digits
  else
    let ex := (n - 1)%Z in
    let tail := "e" ++ (if (ex <? 0)%Z then "-" else "+") ++ string_of_Z (Z.abs ex) in
    if (k =? 1)%Z then digits ++ tail
    else substring 0 1 digits ++ "." ++ substring 1 (Z.to_nat (k - 1)) digits ++ tail.

Definition number_to_string (x : PrimFloat.float) : string :=
  match FloatOps.Prim2SF x with
  | SpecFloat.S754_nan => "NaN"
  | SpecFloat.S754_zero _ => "0"
  | SpecFloat.S754_infinity sign => (if sign then "-" else "") ++ "Infinity"
  | SpecFloat.S754_finite sign m e =>
      (if sign then "-" else "") ++ finite_to_string (Zpos m) e
  end.

(** The results in order, or the first exception. *)
Fixpoint sequence {A : Type} (l : list (result A)) : result (list A) :=
  match l with
  | [] => Ok []
  | Throw e :: _ => Throw e
  | Ok a :: rest =>
      match sequence rest with
      | Throw e => Throw e
      | Ok r => Ok (a :: r)
      end
  end.

Definition cannot_convert : Error :=
  mkError "Cannot convert object to primitive value".

(** ToString, as applied by [new Error(detail)] and by a template literal.
    An array is joined with commas, [null] elements giving the empty
    string.  An object gives "[object Object]" through the inherited
    [toString]; when it has a member of its own named [toString] (never a
    function in JSON) no conversion is left and a TypeError is thrown. *)
Fixpoint to_string (v : val) : result string :=
  match v with
  | VNull => Ok "null"
  | VBool true => Ok "true"
  | VBool false => Ok "false"
  | VNum x => Ok (number_to_string x)
  | VStr s => Ok s
  | VArr l =>
      match sequence
              (map (fun x => match x with VNull => Ok "" | _ => to_string x end) l)
      with
      | Throw e => Throw e
      | Ok parts => Ok (join "," parts)
      end
  | VObj kvs =>
      if existsb (fun kv => fst kv =? "toString") kvs then Throw cannot_convert
      else Ok "[object Object]"
  end.

(** The last member named [k]: a later duplicate key overrides an earlier
    one in [JSON.parse]. *)
Fixpoint lookup (k : string) (kvs : list (string * val)) : option val :=
  match kvs with
  | [] => None
  | (k', v) :: rest =>
      match lookup k rest with
      | Some w => Some w
      | None => if k' =? k then Some v else None
      end
  end.

(** Message of the TypeError raised by reading a property of [null]
    (the wording is the engine's; V8's is used). *)
Definition null_read_message (k : string) : string :=
  "Cannot read properties of null (reading '" ++ k ++ "')".

(** The property read [v.k], for the property names this program reads
    ([detail], [log], [summary], [email_draft]): none of them is defined on
    the prototypes of strings, numbers, booleans or arrays, so the read
    gives [undefined] there; on [null] it throws. *)
Definition get (v : val) (k : string) : result (option val) :=
  match v with
  | VNull => Throw (mkError (null_read_message k))
  | VObj kvs => Ok (lookup k kvs)
  | _ => Ok None
  end.

End Js.

(** ** White space, [String.prototype.trim] and [/\s+/g] *)

Module Text.

Definition byte (c : ascii) : nat := nat_of_ascii c.

(** White space and line terminators of ECMAScript, by the length of their
    UTF-8 encoding.  One byte: TAB, LF, VT, FF, CR, SPACE. *)
Definition ws1 (c : ascii) : bool :=
  let n := byte c in
  (((9 <=? n) && (n <=? 13)) || (n =? 32))%nat.

(** Two bytes: U+00A0 (C2 A0). *)
Definition ws2 (c1 c2 : ascii) : bool :=
  ((byte c1 =? 194) && (byte c2 =? 160))%nat.

(** Three bytes: U+1680 (E1 9A 80), U+2000..U+200A (E2 80 80..8A),
    U+2028, U+2029 (E2 80 A8, A9), U+202F (E2 80 AF), U+205F (E2 81 9F),
    U+3000 (E3 80 80), U+FEFF (EF BB BF). *)
Definition ws3 (c1 c2 c3 : ascii) : bool :=
  let a := byte c1 in
  let b := byte c2 in
  let c := byte c3 in
  (((a =? 225) && (b =? 154) && (c =? 128))
   || ((a =? 226) && (b =? 128)
       && (((128 <=? c) && (c <=? 138)) || (c =? 168) || (c =? 169) || (c =? 175)))
   || ((a =? 226) && (b =? 129) && (c =? 159))
   || ((a =? 227) && (b =? 128) && (c =? 128))
   || ((a =? 239) && (b =? 187) && (c =? 191)))%nat.

(** Drops the white space at the front; [p2] and [p3] recognise the
    two- and three-byte characters in the order the bytes are met. *)
Fixpoint strip (p2 : ascii -> ascii -> bool) (p3 : ascii -> ascii -> ascii -> bool)
    (s : string) : string :=
  match s with
  | EmptyString => EmptyString
  | String c1 r1 =>
      if ws1 c1 then strip p2 p3 r1
      else
        match r1 with
        | EmptyString => s
        | String c2 r2 =>
            if p2 c1 c2 then strip p2 p3 r2
            else
              match r2 with
              | EmptyString => s
              | String c3 r3 => if p3 c1 c2 c3 then strip p2 p3 r3 else s
              end
        end
  end.

Fixpoint rev_append (s acc : string) : string :=
  match s with
  | EmptyString => acc
  | String c r => rev_append r (String c acc)
  end.

Definition rev (s : string) : string := rev_append s EmptyString.

Definition trimStart (s : string) : string := strip ws2 ws3 s.

(** The same scan run over the reversed bytes. *)
Definition trimEnd (s : string) : string :=
  rev (strip (fun a b => ws2 b a) (fun a b c => ws3 c b a) (rev s)).

Definition trim (s : string) : string := trimEnd (trimStart s).

(** A string made of white space only (the empty string included). *)
Inductive Blank : string -> Prop :=
| Blank_nil : Blank EmptyString
| Blank_1 c s : ws1 c = true -> Blank s -> Blank (String c s)
| Blank_2 c1 c2 s : ws2 c1 c2 = true -> Blank s -> Blank (String c1 (String c2 s))
| Blank_3 c1 c2 c3 s :
    ws3 c1 c2 c3 = true -> Blank s -> Blank (String c1 (String c2 (String c3 s))).

(** [s.replace(/\s+/g, r)]: every maximal run of white space becomes [r].
    [inrun] tells that the preceding character was white space. *)
Fixpoint replace_ws (r : string) (inrun : bool) (s : string) : string :=
  let sep := if inrun then EmptyString else r in
  match s with
  | EmptyString => EmptyString
  | String c1 r1 =>
      if ws1 c1 then sep ++ replace_ws r true r1
      else
        match r1 with
        | EmptyString => s
        | String c2 r2 =>
            if ws2 c1 c2 then sep ++ replace_ws r true r2
            else
              match r2 with
              | String c3 r3 =>
                  if ws3 c1 c2 c3 then sep ++ replace_ws r true r3
                  else String c1 (replace_ws r false r1)
              | EmptyString => String c1 (replace_ws r false r1)
              end
        end
  end.

End Text.

(** ** [frontend/src/api.js] *)

Module Api.
Import Js.


(** The request handed to [fetch]; [req_body] is the payload that
    [JSON.stringify] serialises. *)
Record Request (P : Type) : Type := mkRequest {
  req_url : string;
  req_method : string;
  req_content_type : string;
  req_body : P
}.
Arguments mkRequest {P} _ _ _ _.
Arguments req_url {P} _.
Arguments req_method {P} _.
Arguments req_content_type {P} _.
Arguments req_body {P} _.

(** How the promise returned by [fetch] settles: it rejects (network
    failure), or it gives a response with its [ok] flag and with the outcome
    of [response.json()], which throws when the body is not JSON. *)
Inductive fetched : Type :=
| Rejected : Error -> fetched
| Response : bool -> result val -> fetched.

Definition default_detail : string := "Failed to reach agent.".

(** The [detail] computed by the [try]/[catch] of the failure branch:
    [data.detail || detail], and the initial text when [response.json()]
    or the property read throws. *)
Definition failure_detail (body : result val) : val :=
  match body with
  | Throw _ => VStr default_detail
  | Ok data =>
      match get data "detail" with
      | Throw _ => VStr default_detail
      | Ok d => or_else d (VStr default_detail)
      end
  end.

Definition runAgent {P : Type} (base : string) (fetch : Request P -> fetched)
    (payload : P) : result val :=
  match fetch (mkRequest (base ++ "/api/run") "POST" "application/json" payload) with
  | Rejected e => Throw e
  | Response ok body =>
      if negb ok then
        match to_string (failure_detail body) with
        | Ok m => Throw (mkError m)
        | Throw e => Throw e
        end
      else body
  end.

End Api.

(** ** The [App] component *)

Module App.
Import Js.

Record Form : Type := mkForm {
  company : string;
  url : string;
  provider : string;
  model : string
}.

Definition initialForm : Form :=
  mkForm "Acme Corp" "" "openai" "gpt-4o-mini".

(** The [name] attribute of the inputs wired to [handleChange]. *)
Inductive field : Type := FCompany | FUrl | FProvider | FModel.

Inductive Status : Type := idle | running | ready | sent.

(** The eight [useState] cells. *)
Record State : Type := mkState {
  form : Form;
  logLines : val;
  summary : val;
  emailDraft : val;
  status : Status;
  error : string;
  sendMessage : string;
  isSubmitting : bool
}.

Definition initialState : State :=
  mkState initialForm (VArr []) (VStr "") (VStr "") idle "" "" false.

(** *** State setters *)

Definition setForm (f : Form) (s : State) : State :=
  mkState f (logLines s) (summary s) (emailDraft s) (status s) (error s)
          (sendMessage s) (isSubmitting s).
Definition setLogLines (v : val) (s : State) : State :=
  mkState (form s) v (summary s) (emailDraft s) (status s) (error s)
          (sendMessage s) (isSubmitting s).
Definition setSummary (v : val) (s : State) : State :=
  mkState (form s) (logLines s) v (emailDraft s) (status s) (error s)
          (sendMessage s) (isSubmitting s).
Definition setEmailDraft (v : val) (s : State) : State :=
  mkState (form s) (logLines s) (summary s) v (status s) (error s)
          (sendMessage s) (isSubmitting s).
Definition setStatus (x : Status) (s : State) : State :=
  mkState (form s) (logLines s) (summary s) (emailDraft s) x (error s)
          (sendMessage s) (isSubmitting s).
Definition setError (m : string) (s : State) : State :=
  mkState (form s) (logLines s) (summary s) (emailDraft s) (status s) m
          (sendMessage s) (isSubmitting s).
Definition setSendMessage (m : string) (s : State) : State :=
  mkState (form s) (logLines s) (summary s) (emailDraft s) (status s) (error s)
          m (isSubmitting s).
Definition setIsSubmitting (b : bool) (s : State) : State :=
  mkState (form s) (logLines s) (summary s) (emailDraft s) (status s) (error s)
          (sendMessage s) b.

(** *** Handlers as state transformers that may throw

    A handler is run on the component state; it gives the state left by the
    setters it reached and tells whether it completed or threw. *)

Definition M (A : Type) : Type := State -> result A * State.

Definition ret {A : Type} (a : A) : M A := fun s => (Ok a, s).
Definition throw {A : Type} (e : Error) : M A := fun s => (Throw e, s).
Definition bind {A B : Type} (m : M A) (k : A -> M B) : M B :=
  fun s =>
    match m s with
    | (Ok a, s') => k a s'
    | (Throw e, s') => (Throw e, s')
    end.
Definition lift {A : Type} (r : result A) : M A := fun s => (r, s).
Definition gets {A : Type} (f : State -> A) : M A := fun s => (Ok (f s), s).
Definition modify (f : State -> State) : M unit := fun s => (Ok tt, f s).

(** [try { body } catch (err) { handler err }] *)
Definition try_catch {A : Type} (body : M A) (handler : Error -> M A) : M A :=
  fun s =>
    match body s with
    | (Ok a, s') => (Ok a, s')
    | (Throw e, s') => handler e s'
    end.

(** [... finally { fin }] *)
Definition finally {A : Type} (body : M A) (fin : M unit) : M A :=
  fun s =>
    match body s with
    | (r, s') =>
        match fin s' with
        | (Ok _, s'') => (r, s'')
        | (Throw e, s'') => (Throw e, s'')
        end
    end.

Declare Scope handler_scope.
Delimit Scope handler_scope with handler.
Notation "x <- m ;; k" := (bind m (fun x => k))
  (at level 61, m at next level, right associativity) : handler_scope.
Notation "m ;; k" := (bind m (fun _ => k))
  (at level 61, right associativity) : handler_scope.

Local Open Scope handler_scope.

(** *** Event handlers *)

(** [handleChange]: [setForm(prev => ({ ...prev, [name]: value }))] *)
Definition updateForm (name : field) (value : string) (f : Form) : Form :=
  match name with
  | FCompany => mkForm value (url f) (provider f) (model f)
  | FUrl => mkForm (company f) value (provider f) (model f)
  | FProvider => mkForm (company f) (url f) value (model f)
  | FModel => mkForm (company f) (url f) (provider f) value
  end.

Definition handleChange (name : field) (value : string) : M unit :=
  modify (fun s => setForm (updateForm name value (form s)) s).

(** The Reset button: [setForm(initialForm)]. *)
Definition resetForm : M unit := modify (setForm initialForm).

(** [handleSubmit] up to its [await]: the resets, and the payload passed to
    [runAgent] (the [form] of the render the handler was created in). *)
Definition handleSubmit_begin : M Form :=
  payload <- gets form ;;
  modify (setIsSubmitting true) ;;
  modify (setError "") ;;
  modify (setStatus running) ;;
  modify (setSendMessage "") ;;
  modify (setSummary (VStr "")) ;;
  modify (setEmailDraft (VStr "")) ;;
  modify (setLogLines (VArr [])) ;;
  ret payload.

(** [err.message || "Failed to run agent."] *)
Definition shown_error (err : Error) : string :=
  if message err =? "" then "Failed to run agent." else message err.

(** [handleSubmit] from the point where the awaited [runAgent] call has
    settled with [r]: the rest of the [try], the [catch] and the [finally]. *)
Definition handleSubmit_resume (r : result val) : M unit :=
  finally
    (try_catch
       (res <- lift r ;;
        lg <- lift (get res "log") ;;
        modify (setLogLines (or_else lg (VArr []))) ;;
        sm <- lift (get res "summary") ;;
        modify (setSummary (or_else sm (VStr ""))) ;;
        ed <- lift (get res "email_draft") ;;
        modify (setEmailDraft (or_else ed (VStr ""))) ;;
        modify (setStatus ready))
       (fun err =>
          modify (setError (shown_error err)) ;;
          modify (setStatus idle)))
    (modify (setIsSubmitting false)).

(** The whole of [handleSubmit], with nothing else happening while the
    request is in flight. *)
Definition handleSubmit (base : string) (fetch : Api.Request Form -> Api.fetched)
    : M unit :=
  payload <- handleSubmit_begin ;;
  handleSubmit_resume (Api.runAgent base fetch payload).

(** The method call [emailDraft.trim()]: defined on strings only. *)
Definition call_trim (v : val) : result string :=
  match v with
  | VStr t => Ok (Text.trim t)
  | VNull => Throw (mkError (null_read_message "trim"))
  | _ => Throw (mkError "emailDraft.trim is not a function")
  end.

Definition nothing_to_send : string :=
  "Nothing to send—please run the agent first.".
Definition mock_send_complete : string :=
  "Mock send complete. (Hook your email API here.)".

Definition handleSend : M unit :=
  d <- gets emailDraft ;;
  t <- lift (call_trim d) ;;
  if negb (truthy (VStr t)) then
    modify (setSendMessage nothing_to_send)
  else
    modify (setSendMessage mock_send_complete) ;;
    modify (setStatus sent).

(** The text area's [onChange]: [setEmailDraft(evt.target.value)]. *)
Definition editDraft (t : string) : M unit := modify (setEmailDraft (VStr t)).

Record Download : Type := mkDownload {
  filename : string;
  mime : string;
  content : string
}.

Definition nl : string := String (ascii_of_nat 10) EmptyString.

(** [handleDownload]; [now] is [new Date().toLocaleString()].  It builds
    the file offered for download and sets no state; the template literal
    converts the summary and then the draft to strings, which can throw. *)
Definition handleDownload (now : string) : M (option Download) :=
  sm <- gets summary ;;
  ed <- gets emailDraft ;;
  f <- gets form ;;
  if negb (truthy sm) && negb (truthy ed) then ret None
  else
    smText <- lift (to_string (or_else (Some sm) (VStr "No summary available."))) ;;
    edText <- lift (to_string (or_else (Some ed) (VStr "No email draft available."))) ;;
    ret (Some (mkDownload
      (Text.replace_ws "_" false (company f) ++ "_outreach.md")
      "text/markdown"
      ("# Research Results for " ++ company f ++ nl
       ++ "Generated: " ++ now ++ nl
       ++ nl
       ++ "## Summary" ++ nl
       ++ smText ++ nl
       ++ nl
       ++ "## Email Draft" ++ nl
       ++ edText ++ nl))).

(** *** Runs of the component *)

(** What can happen to the mounted component: the operator's actions and
    the settling of the request in flight. *)
Inductive event : Type :=
| Change : field -> string -> event
| Reset : event
| Submit : event
| Settle : result val -> event
| Edit : string -> event
| Send : event
| DownloadAt : string -> event.

Definition handler (e : event) : M unit :=
  match e with
  | Change name value => handleChange name value
  | Reset => resetForm
  | Submit => handleSubmit_begin ;; ret tt
  | Settle r => handleSubmit_resume r
  | Edit t => editDraft t
  | Send => handleSend
  | DownloadAt now => handleDownload now ;; ret tt
  end.

(** The state after a handler has run (an exception escaping a handler
    leaves what its setters had set). *)
Definition step (s : State) (e : event) : State := snd (handler e s).

Definition run (s : State) (evs : list event) : State := fold_left step evs s.

(** *** What the rendered page lets through *)

(** [disabled={!emailDraft}] on the Approve button. *)
Definition sendDisabled (s : State) : bool := negb (truthy (emailDraft s)).

(** [disabled={!summary && !emailDraft}] on the Download button. *)
Definition downloadDisabled (s : State) : bool :=
  negb (truthy (summary s)) && negb (truthy (emailDraft s)).

Section FormSubmission.

(** The browser's check of an [<input type="url">] value. *)
Variable validUrl : string -> bool.

(** Constraint validation of the form: [company] is [required]; [url] is
    optional and of type [url]. *)
Definition formValid (f : Form) : bool :=
  negb (company f =? "") && ((url f =? "") || validUrl (url f)).

(** Submitting the form (the submit button, which is
    [disabled={isSubmitting}], or Enter in a field): the [submit] event, and
    so [handleSubmit], is dispatched only when the button is enabled and the
    form is valid.  Gives the payload sent to the backend, if any. *)
Definition submitForm (s : State) : option Form * State :=
  if isSubmitting s then (None, s)
  else if negb (formValid (form s)) then (None, s)
  else
    match handleSubmit_begin s with
    | (Ok payload, s') => (Some payload, s')
    | (Throw _, s') => (None, s')
    end.

End FormSubmission.

End App.

(** ** The workflow engine behind [/api/run]

    The engine ([src/main.py]: the LangGraph workflow, its search node and
    its approval node) is not among the sources at hand; this module
    follows the specification of the workflow core. *)

Module Workflow.

(** Modelled from the spec: the stages of the state machine
    "Idle, Searching, Scraping, Drafting, AwaitingApproval, Sending,
    {Sent, Rejected, Failed}". *)
Inductive Stage : Type :=
| Idle | Searching | Scraping | Drafting | AwaitingApproval | Sending
| Sent | Rejected | Failed.

(** Modelled from the spec: "outcome: enum{pending, approved, rejected,
    failed}". *)
Inductive Outcome : Type := pending | approved | rejected | failed.

Record Input : Type := mkInput {
  company : string;
  url : option string;
  provider : string;
  model : string
}.

(** Modelled from the spec: the ResearchContext, a "mapping from source
    label to extracted text; insertion order preserved". *)
Definition ResearchContext : Type := list (string * string).

(** Modelled from the spec: the WorkflowRun, the unit of execution. *)
Record WorkflowRun : Type := mkRun {
  input : Input;
  stage : Stage;
  context : ResearchContext;
  summary : option string;
  emailDraft : option string;
  traceLog : list string;
  outcome : Outcome
}.

(** Modelled from the spec: the ApprovalDecision,
    "{approved: bool, editedEmailDraft: string?}". *)
Record ApprovalDecision : Type := mkDecision {
  is_approved : bool;
  editedEmailDraft : option string
}.

(** Modelled from the spec: the Context Accumulator's [append(label, text)],
    "idempotent per label (re-appending the same label overwrites rather
    than duplicates)"; a new label goes last. *)
Fixpoint append (label text : string) (ctx : ResearchContext) : ResearchContext :=
  match ctx with
  | [] => [(label, text)]
  | (l, t) :: rest =>
      if l =? label then (l, text) :: rest
      else (l, t) :: append label text rest
  end.

Definition truncate (n : nat) (text : string) : string := substring 0 n text.

Inductive Query : Type := News | About.

Definition label_of (q : Query) : string :=
  match q with
  | News => "search:news"
  | About => "search:about"
  end.

Record Hit : Type := mkHit {
  title : string;
  snippet : string;
  hit_url : string
}.

(** Modelled from the spec: how a query of the search capability ended,
    with [SearchUnavailable] or with its ordered results. *)
Inductive Reply : Type :=
| Unavailable : Reply
| Hits : list Hit -> Reply.

Definition query_eqb (a b : Query) : bool :=
  match a, b with
  | News, News => true
  | About, About => true
  | _, _ => false
  end.

(** The reply of query [q] among the replies listed in the order in which
    they completed. *)
Fixpoint reply_of (q : Query) (completed : list (Query * Reply)) : option Reply :=
  match completed with
  | [] => None
  | (q', r) :: rest => if query_eqb q' q then Some r else reply_of q rest
  end.

Section Engine.

(** What the specification leaves to the implementation: the header put
    before an entry, the character budget of a label, the number of results
    kept per query, the rendering of results, the "no results" marker and
    the wording of the trace lines. *)
Variable header : string -> string.
Variable budget : string -> nat.
Variable maxResults : nat.
Variable format : list Hit -> string.
Variable noResults : string.
Variable line_failed : Query -> string.
Variable line_searched : Query -> string.
Variable line_approved : string.
Variable line_rejected : string.
Variable line_sent : string.

(** Modelled from the spec: [renderForPrompt()], which "deterministically
    concatenates entries in insertion order with label headers, truncating
    each entry to a fixed character budget". *)
Definition render_entry (e : string * string) : string :=
  header (fst e) ++ truncate (budget (fst e)) (snd e).

Fixpoint renderForPrompt (ctx : ResearchContext) : string :=
  match ctx with
  | [] => ""
  | e :: rest => render_entry e ++ renderForPrompt rest
  end.

Definition with_context (ctx : ResearchContext) (line : string) (r : WorkflowRun)
    : WorkflowRun :=
  mkRun (input r) (stage r) ctx (summary r) (emailDraft r)
        (traceLog r ++ [line]) (outcome r).

Definition log_line (line : string) (r : WorkflowRun) : WorkflowRun :=
  with_context (context r) line r.

(** Modelled from the spec: the text the Search Stage files for a query
    that answered: its results, "bounded to a fixed count per query", or
    "an explicit no-results marker rather than an empty entry". *)
Definition text_of_hits (hs : list Hit) : string :=
  match hs with
  | [] => noResults
  | _ => format (firstn maxResults hs)
  end.

(** Modelled from the spec: what the Search Stage does with one query once
    both have completed: the text of an answered query is appended under
    the query's label; "a failed query is caught locally, logged as a trace
    line, and the stage continues with whatever succeeded". *)
Definition merge_query (completed : list (Query * Reply)) (q : Query)
    (r : WorkflowRun) : WorkflowRun :=
  match reply_of q completed with
  | Some (Hits hs) =>
      with_context (append (label_of q) (text_of_hits hs) (context r))
                   (line_searched q) r
  | Some Unavailable => log_line (line_failed q) r
  | None => r
  end.

(** Modelled from the spec: the merge of the Search Stage, "in a fixed,
    deterministic order (news query first, overview query second) regardless
    of which completes first". *)
Definition searchStage (completed : list (Query * Reply)) (r : WorkflowRun)
    : WorkflowRun :=
  merge_query completed About (merge_query completed News r).

Definition set_stage (st : Stage) (o : Outcome) (draft : option string)
    (line : string) (r : WorkflowRun) : WorkflowRun :=
  mkRun (input r) st (context r) (summary r) draft (traceLog r ++ [line]) o.

(** Modelled from the spec: the Approval Gate.  A decision is taken only by
    a run suspended in [AwaitingApproval]; "on approved=true, an
    editedEmailDraft if supplied replaces emailDraft verbatim before
    proceeding; on approved=false, the run transitions to Rejected". *)
Definition deliver (d : ApprovalDecision) (r : WorkflowRun) : option WorkflowRun :=
  match stage r with
  | AwaitingApproval =>
      if is_approved d then
        Some (set_stage Sending approved
                (match editedEmailDraft d with
                 | Some e => Some e
                 | None => emailDraft r
                 end)
                line_approved r)
      else Some (set_stage Rejected rejected (emailDraft r) line_rejected r)
  | _ => None
  end.

(** Modelled from the spec: the Send Stage, which "transitions to Sent", is
    "unreachable except via an approved decision" and is a no-op on a run
    already [Sent]. *)
Definition send (r : WorkflowRun) : option WorkflowRun :=
  match stage r with
  | Sending => Some (set_stage Sent (outcome r) (emailDraft r) line_sent r)
  | Sent => Some r
  | _ => None
  end.

(** Modelled from the spec: what can be asked of a run after drafting, the
    delivery of a decision or the execution of the Send Stage. *)
Inductive Action : Type :=
| Decide : ApprovalDecision -> Action
| RunSend : Action.

Definition perform (a : Action) (r : WorkflowRun) : option WorkflowRun :=
  match a with
  | Decide d => deliver d r
  | RunSend => send r
  end.

(** Modelled from the spec: the Workflow Controller serving a list of
    requests; a request that does not apply in the current stage is refused
    and leaves the run as it is.  The second component counts the
    executions of the Send Stage. *)
Fixpoint drive (acts : list Action) (r : WorkflowRun) (sends : nat)
    : WorkflowRun * nat :=
  match acts with
  | [] => (r, sends)
  | a :: rest =>
      match perform a r with
      | Some r' =>
          drive rest r'
                (match a with RunSend => S sends | Decide _ => sends end)
      | None => drive rest r sends
      end
  end.

End Engine.

End Workflow.

(** ** Sample data *)

Module Sample.
Import Js App.

(** A successful reply of [/api/run]. *)
Definition reply : val :=
  VObj [("log", VArr [VStr "Searching for company news..."; VStr "Drafted email"]);
        ("summary", VStr "Acme builds widgets.");
        ("email_draft", VStr "Hello Acme")].

(** The page once a run has come back with [reply]. *)
Definition after_run : State := run initialState [Submit; Settle (Ok reply)].

(** A refusal of the backend, as a response that is not [ok]. *)
Definition refusal (detail : val) : Api.Request Form -> Api.fetched :=
  fun _ => Api.Response false (Ok (VObj [("detail", detail)])).

Definition any_url (_ : string) : bool := true.

(** The positive double [m * 2^e]. *)
Definition double (m : positive) (e : Z) : PrimFloat.float :=
  FloatOps.SF2Prim (SpecFloat.S754_finite false m e).

(** The double [10^21 = 7629394531250000 * 2^17], which JavaScript prints
    as "1e+21". *)
Definition sextillion : PrimFloat.float :=
  FloatOps.SF2Prim (SpecFloat.S754_finite false 7629394531250000%positive 17%Z).

(** A workflow run suspended at the approval gate. *)
Definition awaiting : Workflow.WorkflowRun :=
  Workflow.mkRun
    (Workflow.mkInput "Acme Corp" (Some "https://acme.example") "primary" "m1")
    Workflow.AwaitingApproval
    [("search:news", "Acme raises funds"); ("search:about", "Acme builds widgets.")]
    (Some "Acme builds widgets.")
    (Some "Hello Acme Corp")
    ["Searching for company news..."; "Drafted email"]
    Workflow.pending.

(** A run about to enter the Search Stage, and one result per query. *)
Definition fresh : Workflow.WorkflowRun :=
  Workflow.mkRun
    (Workflow.mkInput "Acme Corp" None "primary" "m1")
    Workflow.Searching [] None None [] Workflow.pending.

Definition newsHit : Workflow.Hit :=
  Workflow.mkHit "Acme raises funds" "Series B" "https://news.example/acme".
Definition aboutHit : Workflow.Hit :=
  Workflow.mkHit "About Acme" "Acme builds widgets." "https://acme.example/about".

Definition header (label : string) : string := "## " ++ label ++ ": ".
Definition budget (_ : string) : nat := 8.
Fixpoint format (hs : list Workflow.Hit) : string :=
  match hs with
  | [] => ""
  | h :: rest => Workflow.title h ++ ";" ++ format rest
  end.
Definition line (q : Workflow.Query) : string := Workflow.label_of q.

End Sample.

(** ** What the page renders *)

Module View.
Import Js App.

(** The [value={form.company}], [value={form.url}], ... bindings of the
    controlled inputs. *)
Definition fieldValue (name : field) (f : Form) : string :=
  match name with
  | FCompany => company f
  | FUrl => url f
  | FProvider => provider f
  | FModel => model f
  end.

Definition field_eqb (a b : field) : bool :=
  match a, b with
  | FCompany, FCompany | FUrl, FUrl | FProvider, FProvider | FModel, FModel => true
  | _, _ => false
  end.

(** The function given to [useMemo] for [heroTitle]. *)
Definition heroTitleOf (f : Form) : string :=
  "Cold Outreach Researcher · "
  ++ (if provider f =? "openai" then "OpenAI" else "Anthropic").

(** The memo cell of [useMemo(..., [form.provider])]: the dependency seen
    by the last computation and the value it gave. *)
Record Memo : Type := mkMemo { memo_dep : string; memo_value : string }.

(** One render's [useMemo] call: the stored value is reused when the
    dependency is the one stored, and the function is run again
    otherwise (and on the first render). *)
Definition heroTitle (cell : option Memo) (f : Form) : string * option Memo :=
  match cell with
  | Some m =>
      if memo_dep m =? provider f then (memo_value m, cell)
      else (heroTitleOf f, Some (mkMemo (provider f) (heroTitleOf f)))
  | None => (heroTitleOf f, Some (mkMemo (provider f) (heroTitleOf f)))
  end.

(** The titles shown by successive renders, the form of each render given. *)
Fixpoint titles (cell : option Memo) (forms : list Form) : list string :=
  match forms with
  | [] => []
  | f :: rest =>
      let (t, cell') := heroTitle cell f in
      t :: titles cell' rest
  end.

Record Pill : Type := mkPill { pill_text : string; pill_class : string }.

(** [StatusPill]: the [palette] entry of the status.  Both uses pass the
    [status] cell, which only ever holds one of the four literals, so the
    [|| palette.idle] fallback is not reached. *)
Definition StatusPill (st : Status) : Pill :=
  match st with
  | idle => mkPill "Idle" "pill pill-neutral"
  | running => mkPill "Researching…" "pill pill-active"
  | ready => mkPill "Ready for approval" "pill pill-ready"
  | sent => mkPill "Mock sent ✓" "pill pill-sent"
  end.

(** The label of the submit button. *)
Definition submitLabel (s : State) : string :=
  if isSubmitting s then "Running..." else "Run research + draft".

End View.

(** ** The page in the browser *)

Module Page.
Import Js App.

(** The mounted component together with the requests of [runAgent] that
    have not settled yet, oldest first, each with the payload it carries. *)
Record Page : Type := mkPage {
  cells : State;
  inflight : list Form
}.

Definition initialPage : Page := mkPage initialState [].

(** What the operator and the network can do to the page. *)
Inductive action : Type :=
| TypeField : field -> string -> action
| ClickReset : action
| SubmitForm : action
| Arrive : Api.fetched -> action
| TypeDraft : string -> action
| ClickSend : action
| ClickDownload : string -> action.

Section Browser.

Variable validUrl : string -> bool.
Variable base : string.

(** One action, with what the rendered page lets through: a disabled button
    does nothing, the form is submitted only when [submitForm] lets it, and
    the response that arrives settles the oldest request in flight. *)
Definition act (p : Page) (a : action) : Page :=
  match a with
  | TypeField name value => mkPage (step (cells p) (Change name value)) (inflight p)
  | ClickReset => mkPage (step (cells p) Reset) (inflight p)
  | SubmitForm =>
      match submitForm validUrl (cells p) with
      | (Some payload, s') => mkPage s' (inflight p ++ [payload])%list
      | (None, s') => mkPage s' (inflight p)
      end
  | Arrive f =>
      match inflight p with
      | [] => p
      | payload :: rest =>
          mkPage (step (cells p)
                       (Settle (Api.runAgent base (fun _ => f) payload)))
                 rest
      end
  | TypeDraft t => mkPage (step (cells p) (Edit t)) (inflight p)
  | ClickSend =>
      if sendDisabled (cells p) then p
      else mkPage (step (cells p) Send) (inflight p)
  | ClickDownload now =>
      if downloadDisabled (cells p) then p
      else mkPage (step (cells p) (DownloadAt now)) (inflight p)
  end.

Definition play (p : Page) (acts : list action) : Page := fold_left act acts p.

(** What holds of the page at every moment (see [PageFacts]). *)
Definition Inv (p : Page) : Prop :=
  (List.length (inflight p) <= 1)%nat /\
  (isSubmitting (cells p) = true <-> inflight p <> []) /\
  (isSubmitting (cells p) = true -> error (cells p) = "") /\
  (status (cells p) = running -> isSubmitting (cells p) = true) /\
  (status (cells p) = ready -> error (cells p) = "") /\
  Forall (fun f => formValid validUrl f = true) (inflight p).

End Browser.

End Page.

(** ** Predicates used in the statements *)

Module Pred.
Import Js App.



(** White-space strings for a scan with recognisers [p2] and [p3]. *)
Inductive BlankBy (p2 : ascii -> ascii -> bool) (p3 : ascii -> ascii -> ascii -> bool)
    : string -> Prop :=
| BlankBy_nil : BlankBy p2 p3 EmptyString
| BlankBy_1 c s : Text.ws1 c = true -> BlankBy p2 p3 s -> BlankBy p2 p3 (String c s)
| BlankBy_2 c1 c2 s :
    p2 c1 c2 = true -> BlankBy p2 p3 s -> BlankBy p2 p3 (String c1 (String c2 s))
| BlankBy_3 c1 c2 c3 s :
    p3 c1 c2 c3 = true -> BlankBy p2 p3 s ->
    BlankBy p2 p3 (String c1 (String c2 (String c3 s))).

(** An event that only edits the form. *)
Definition formEvent (e : event) : bool :=
  match e with
  | Change _ _ | Reset => true
  | _ => false
  end.

(** The reply of a settled request gives a draft that is a string: its
    [email_draft] is missing, falsy, or a string. *)
Definition stringDraft (e : event) : Prop :=
  match e with
  | Settle (Ok v) =>
      forall d, get v "email_draft" = Ok (Some d) -> truthy d = true ->
                exists t, d = VStr t
  | _ => True
  end.

End Pred.

(** * Properties *)

(** ** White space *)

Module TextFacts.
Import Text.

Lemma ws2_not_ws1 c1 c2 : ws2 c1 c2 = true -> ws1 c1 = false.
Proof.
  unfold ws2, ws1. intros H.
  apply andb_prop in H. destruct H as [H _].
  apply Nat.eqb_eq in H. rewrite H. reflexivity.
Qed.

Lemma ws3_lead c1 c2 c3 :
  ws3 c1 c2 c3 = true ->
  byte c1 = 225 \/ byte c1 = 226 \/ byte c1 = 227 \/ byte c1 = 239.
Proof.
  unfold ws3. intros H.
  repeat (apply orb_prop in H; destruct H as [H | H]);
    repeat (apply andb_prop in H; destruct H as [H ?]);
    apply Nat.eqb_eq in H; auto.
Qed.

Lemma ws3_not_ws1 c1 c2 c3 : ws3 c1 c2 c3 = true -> ws1 c1 = false.
Proof.
  intros H. apply ws3_lead in H. unfold ws1.
  destruct H as [H | [H | [H | H]]]; rewrite H; reflexivity.
Qed.

Lemma ws3_not_ws2 c1 c2 c3 : ws3 c1 c2 c3 = true -> ws2 c1 c2 = false.
Proof.
  intros H. apply ws3_lead in H. unfold ws2.
  destruct H as [H | [H | [H | H]]]; rewrite H; reflexivity.
Qed.

(** The scan from the front eats a string of white space whole. *)
Lemma trimStart_blank s : Blank s -> trimStart s = EmptyString.
Proof.
  unfold trimStart.
  induction 1 as [| c s Hc _ IH | c1 c2 s Hc _ IH | c1 c2 c3 s Hc _ IH]; simpl.
  - reflexivity.
  - rewrite Hc. exact IH.
  - rewrite (ws2_not_ws1 _ _ Hc), Hc. exact IH.
  - rewrite (ws3_not_ws1 _ _ _ Hc), (ws3_not_ws2 _ _ _ Hc), Hc. exact IH.
Qed.

Lemma trim_blank s : Blank s -> trim s = EmptyString.
Proof.
  intros H. unfold trim. rewrite (trimStart_blank s H). reflexivity.
Qed.

Lemma trim_not_blank s : trim s <> EmptyString -> ~ Blank s.
Proof.
  intros H B. apply H. apply trim_blank. exact B.
Qed.

Lemma trim_nonempty s : trim s <> EmptyString -> s <> EmptyString.
Proof.
  intros H E. apply H. rewrite E. reflexivity.
Qed.

End TextFacts.

(** ** The component *)

Module AppFacts.
Import Js App.

(** [handleSend], case by case. *)
Lemma handleSend_string s t :
  emailDraft s = VStr t ->
  handleSend s =
    if Text.trim t =? "" then (Ok tt, setSendMessage nothing_to_send s)
    else (Ok tt, setStatus sent (setSendMessage mock_send_complete s)).
Proof.
  intros E. unfold handleSend, bind, gets, lift, modify. rewrite E. simpl.
  destruct (Text.trim t =? ""); reflexivity.
Qed.

Lemma handleSend_throws s :
  (forall t, emailDraft s <> VStr t) ->
  exists e, handleSend s = (Throw e, s).
Proof.
  intros N. unfold handleSend, bind, gets, lift.
  destruct (emailDraft s) as [| b | n | t | l | kvs] eqn:E; simpl;
    try (eexists; reflexivity).
  exfalso. exact (N t eq_refl).
Qed.

(** [handleSubmit] after the [await], case by case. *)
Lemma resume_throw e s :
  handleSubmit_resume (Throw e) s =
    (Ok tt, setIsSubmitting false (setStatus idle (setError (shown_error e) s))).
Proof. reflexivity. Qed.

Lemma resume_null s :
  handleSubmit_resume (Ok VNull) s =
    (Ok tt, setIsSubmitting false
              (setStatus idle
                 (setError (shown_error (mkError (null_read_message "log"))) s))).
Proof. reflexivity. Qed.

Lemma resume_value v s :
  v <> VNull ->
  exists lg sm ed,
    get v "log" = Ok lg /\ get v "summary" = Ok sm /\ get v "email_draft" = Ok ed /\
    handleSubmit_resume (Ok v) s =
      (Ok tt, setIsSubmitting false
                (setStatus ready
                   (setEmailDraft (or_else ed (VStr ""))
                      (setSummary (or_else sm (VStr ""))
                         (setLogLines (or_else lg (VArr [])) s))))).
Proof.
  intros N.
  destruct v as [| b | n | t | l | kvs]; try congruence;
    do 3 eexists; repeat split; reflexivity.
Qed.

(** After the awaited call has settled the status is [ready] or [idle]. *)
Lemma resume_status r s :
  status (snd (handleSubmit_resume r s)) = ready \/
  status (snd (handleSubmit_resume r s)) = idle.
Proof.
  destruct r as [e | v].
  - right. reflexivity.
  - destruct v; (left; reflexivity) || (right; reflexivity).
Qed.

Lemma shown_error_nonempty e : shown_error e <> "".
Proof.
  unfold shown_error. destruct (message e =? "") eqn:E.
  - discriminate.
  - intros H. rewrite H in E. discriminate.
Qed.

(** [handleDownload] sets nothing, whether it completes or throws. *)
Lemma handleDownload_pure now s : snd (handleDownload now s) = s.
Proof.
  unfold handleDownload, bind, gets, ret, lift.
  destruct (negb (truthy (summary s)) && negb (truthy (emailDraft s)));
    [reflexivity |].
  destruct (to_string (or_else (Some (summary s)) (VStr "No summary available.")));
    [reflexivity |].
  destruct (to_string (or_else (Some (emailDraft s)) (VStr "No email draft available.")));
    reflexivity.
Qed.

Lemma step_download now s : step s (DownloadAt now) = s.
Proof.
  unfold step, handler, bind.
  pose proof (handleDownload_pure now s) as H.
  destruct (handleDownload now s) as [[e | d] s']; simpl in *; exact H.
Qed.

(** One handler makes the status [sent] only if it is [handleSend] run on a
    draft that is a string with something other than white space in it. *)
Lemma step_sent s e :
  status (step s e) = sent ->
  status s = sent \/
  (e = Send /\ exists t, emailDraft s = VStr t /\ Text.trim t <> "").
Proof.
  destruct e as [name value | | | r | t | | now]; unfold step, handler.
  - simpl. auto.
  - simpl. auto.
  - simpl. discriminate.
  - intros H. destruct (resume_status r s) as [E | E]; rewrite E in H; discriminate.
  - simpl. auto.
  - destruct (emailDraft s) as [| b | n | t | l | kvs] eqn:E;
      try (destruct (handleSend_throws s) as [x Hx];
           [intros t' Ht'; rewrite E in Ht'; discriminate | rewrite Hx; auto]).
    rewrite (handleSend_string s t E).
    destruct (Text.trim t =? "") eqn:T; simpl; [auto |].
    intros _. right. split; [reflexivity |]. exists t. split; [reflexivity |].
    intros H. rewrite H in T. discriminate.
  - pose proof (step_download now s) as D. unfold step, handler in D.
    rewrite D. auto.
Qed.

Lemma run_snoc s evs e : run s (evs ++ [e])%list = step (run s evs) e.
Proof. unfold run. rewrite fold_left_app. reflexivity. Qed.

(** C1.  Whatever the operator does and however requests settle, a page
    that was not [sent] shows [sent] only if somewhere in the run the
    approve-and-send action was taken on a draft that was then a non-empty
    string (with more than white space in it), and that action made the
    status [sent]. *)
Theorem sent_only_after_approval (s0 : State) (evs : list event) :
  status s0 <> sent ->
  status (run s0 evs) = sent ->
  exists pre post t,
    evs = (pre ++ Send :: post)%list /\
    emailDraft (run s0 pre) = VStr t /\
    t <> "" /\ Text.trim t <> "" /\
    status (run s0 (pre ++ [Send])%list) = sent.
Proof.
  intros H0. induction evs as [| e evs IH] using rev_ind.
  - intros H. contradiction.
  - rewrite run_snoc. intros H.
    destruct (step_sent _ _ H) as [Hs | [He [t [Hd Ht]]]].
    + destruct (IH Hs) as [pre [post [t [E [Hd [Hn [Ht Hst]]]]]]].
      exists pre, (post ++ [e])%list, t. rewrite E.
      repeat split; auto. rewrite <- app_assoc. reflexivity.
    + subst e. exists evs, [], t.
      repeat split; auto.
      * apply TextFacts.trim_nonempty. exact Ht.
      * rewrite run_snoc. exact H.
Qed.

Lemma sent_only_after_approval_witness :
  exists pre post t,
    [Submit; Settle (Ok Sample.reply); DownloadAt "now"; Send] = (pre ++ Send :: post)%list /\
    emailDraft (run initialState pre) = VStr t /\
    t <> "" /\ Text.trim t <> "" /\
    status (run initialState (pre ++ [Send])%list) = sent.
Proof.
  apply (sent_only_after_approval initialState
           [Submit; Settle (Ok Sample.reply); DownloadAt "now"; Send]).
  - discriminate.
  - reflexivity.
Defined.




(** The same holds when the call resolves with [null], the one reply on
    which the [try] block itself throws. *)
Lemma null_reply_keeps_artifacts (s : State) :
  logLines (step s (Settle (Ok VNull))) = logLines s /\
  summary (step s (Settle (Ok VNull))) = summary s /\
  emailDraft (step s (Settle (Ok VNull))) = emailDraft s.
Proof.
  unfold step, handler. rewrite resume_null. simpl. repeat split.
Qed.

(** Running [handleSend] again on the state it left gives the same outcome
    and the same state. *)
Lemma handleSend_again (s : State) :
  handleSend (snd (handleSend s)) = handleSend s.
Proof.
  destruct (emailDraft s) as [| b | n | t | l | kvs] eqn:E;
    try (destruct (handleSend_throws s) as [x Hx];
         [intros t' Ht'; rewrite E in Ht'; discriminate
         | rewrite Hx; simpl; exact Hx]).
  rewrite (handleSend_string s t E).
  destruct (Text.trim t =? "") eqn:T; simpl.
  - rewrite (handleSend_string _ t); [rewrite T; reflexivity | exact E].
  - rewrite (handleSend_string _ t); [rewrite T; reflexivity | exact E].
Qed.

(** C4.  Once [handleSend] has completed and left the run [sent], invoking
    it a second time completes again (no error) and gives exactly the same
    state; the trace log and the error field are those from before the
    first invocation. *)
Theorem send_twice_same_state (s s1 : State) :
  handleSend s = (Ok tt, s1) ->
  status s1 = sent ->
  handleSend s1 = (Ok tt, s1) /\
  step s1 Send = s1 /\
  logLines s1 = logLines s /\
  error s1 = error s.
Proof.
  intros H Hs.
  assert (A : handleSend s1 = (Ok tt, s1)).
  { pose proof (handleSend_again s) as I. rewrite H in I. exact I. }
  split; [exact A |]. split; [unfold step, handler; rewrite A; reflexivity |].
  destruct (emailDraft s) as [| b | n | t | l | kvs] eqn:E;
    try (destruct (handleSend_throws s) as [x Hx];
         [intros t' Ht'; rewrite E in Ht'; discriminate
         | rewrite Hx in H; discriminate]).
  rewrite (handleSend_string s t E) in H.
  destruct (Text.trim t =? ""); inversion H; subst s1; split; reflexivity.
Qed.

Lemma send_twice_same_state_witness :
  handleSend (step Sample.after_run Send) = (Ok tt, step Sample.after_run Send) /\
  step (step Sample.after_run Send) Send = step Sample.after_run Send /\
  logLines (step Sample.after_run Send) = logLines Sample.after_run /\
  error (step Sample.after_run Send) = error Sample.after_run.
Proof.
  apply (send_twice_same_state Sample.after_run (step Sample.after_run Send)).
  - reflexivity.
  - reflexivity.
Defined.

(** C5.  Text typed into the draft area replaces the draft verbatim,
    whatever the draft was; approving then completes with status [sent] on
    a state whose draft is the typed text. *)
Theorem edited_draft_is_the_one_sent (s : State) (t : string) :
  Text.trim t <> "" ->
  emailDraft (step s (Edit t)) = VStr t /\
  handleSend (step s (Edit t)) = (Ok tt, run s [Edit t; Send]) /\
  status (run s [Edit t; Send]) = sent /\
  emailDraft (run s [Edit t; Send]) = VStr t /\
  sendMessage (run s [Edit t; Send]) = mock_send_complete.
Proof.
  intros Ht.
  assert (T : (Text.trim t =? "") = false).
  { destruct (Text.trim t =? "") eqn:E; [| reflexivity].
    apply String.eqb_eq in E. contradiction. }
  assert (E : emailDraft (step s (Edit t)) = VStr t) by reflexivity.
  assert (H : handleSend (step s (Edit t)) =
              (Ok tt, setStatus sent (setSendMessage mock_send_complete (step s (Edit t))))).
  { rewrite (handleSend_string _ t E), T. reflexivity. }
  change (run s [Edit t; Send]) with (snd (handleSend (step s (Edit t)))).
  rewrite H. simpl. repeat split; reflexivity.
Qed.

Lemma edited_draft_is_the_one_sent_witness :
  emailDraft (step Sample.after_run (Edit "Dear Acme team")) = VStr "Dear Acme team" /\
  handleSend (step Sample.after_run (Edit "Dear Acme team")) =
    (Ok tt, run Sample.after_run [Edit "Dear Acme team"; Send]) /\
  status (run Sample.after_run [Edit "Dear Acme team"; Send]) = sent /\
  emailDraft (run Sample.after_run [Edit "Dear Acme team"; Send]) = VStr "Dear Acme team" /\
  sendMessage (run Sample.after_run [Edit "Dear Acme team"; Send]) = mock_send_complete.
Proof.
  apply (edited_draft_is_the_one_sent Sample.after_run "Dear Acme team").
  vm_compute. discriminate.
Defined.

(** [handleSubmit] never lets an exception out, whatever [fetch] does. *)
Lemma handleSubmit_completes base fetch (s : State) :
  exists s', handleSubmit base fetch s = (Ok tt, s') /\ isSubmitting s' = false.
Proof.
  unfold handleSubmit, bind. simpl.
  destruct (Api.runAgent base fetch (form s)) as [e | v].
  - rewrite resume_throw. eexists. split; reflexivity.
  - destruct v as [| b | n | t | l | kvs];
      eexists; (split; [reflexivity | reflexivity]).
Qed.

(** C8.  When the backend call fails ([runAgent] throws [e]),
    [handleSubmit] completes without an exception and leaves the page
    stable: status [idle], no submission in progress, and an error message
    that is never empty, namely the message of [e], or "Failed to run
    agent." when [e] has none. *)
Theorem failed_call_is_reported base fetch (s : State) (e : Error) :
  Api.runAgent base fetch (form s) = Throw e ->
  exists s',
    handleSubmit base fetch s = (Ok tt, s') /\
    status s' = idle /\
    isSubmitting s' = false /\
    error s' = shown_error e /\
    error s' <> "" /\
    (message e <> "" -> error s' = message e).
Proof.
  intros H. unfold handleSubmit, bind. simpl. rewrite H, resume_throw.
  eexists. split; [reflexivity |]. simpl.
  repeat split.
  - apply shown_error_nonempty.
  - intros N. unfold shown_error.
    destruct (message e =? "") eqn:E; [| reflexivity].
    apply String.eqb_eq in E. contradiction.
Qed.

Lemma failed_call_is_reported_witness :
  exists s',
    handleSubmit "http://localhost:8000" (Sample.refusal (VStr "quota exceeded"))
                 Sample.after_run = (Ok tt, s') /\
    status s' = idle /\
    isSubmitting s' = false /\
    error s' = shown_error (mkError "quota exceeded") /\
    error s' <> "" /\
    (message (mkError "quota exceeded") <> "" ->
     error s' = message (mkError "quota exceeded")).
Proof.
  apply (failed_call_is_reported "http://localhost:8000"
           (Sample.refusal (VStr "quota exceeded")) Sample.after_run
           (mkError "quota exceeded")).
  reflexivity.
Defined.

(** C9.  [handleSend] on a draft that is empty or made of white space only
    completes and changes nothing but [sendMessage], which becomes the
    notice asking to run the agent first; in particular the status is the
    one from before and does not become [sent] by this call. *)
Theorem send_on_blank_draft (s : State) (t : string) :
  emailDraft s = VStr t ->
  Text.Blank t ->
  handleSend s = (Ok tt, setSendMessage nothing_to_send s) /\
  status (step s Send) = status s /\
  sendMessage (step s Send) = nothing_to_send /\
  step s Send = setSendMessage nothing_to_send s.
Proof.
  intros E B.
  assert (H : handleSend s = (Ok tt, setSendMessage nothing_to_send s)).
  { rewrite (handleSend_string s t E), (TextFacts.trim_blank t B). reflexivity. }
  unfold step, handler. rewrite H. simpl. repeat split.
Qed.

Lemma send_on_blank_draft_witness :
  handleSend (step Sample.after_run (Edit "  ")) =
    (Ok tt, setSendMessage nothing_to_send (step Sample.after_run (Edit "  "))) /\
  status (step (step Sample.after_run (Edit "  ")) Send) =
    status (step Sample.after_run (Edit "  ")) /\
  sendMessage (step (step Sample.after_run (Edit "  ")) Send) = nothing_to_send /\
  step (step Sample.after_run (Edit "  ")) Send =
    setSendMessage nothing_to_send (step Sample.after_run (Edit "  ")).
Proof.
  apply (send_on_blank_draft (step Sample.after_run (Edit "  ")) "  ").
  - reflexivity.
  - apply Text.Blank_1; [reflexivity |].
    apply Text.Blank_1; [reflexivity |].
    apply Text.Blank_nil.
Defined.

(** C3, as stated, fails: with the company field emptied on a page that
    still shows the previous run, submitting leaves that run's trace lines
    in the log and records no error. *)
Lemma empty_company_counterexample :
  ~ (forall (validUrl : string -> bool) (s : State),
       company (form s) = "" ->
       fst (submitForm validUrl s) = None /\
       error (snd (submitForm validUrl s)) <> "" /\
       logLines (snd (submitForm validUrl s)) = VArr []).
Proof.
  intros H.
  destruct (H Sample.any_url (step Sample.after_run (Change FCompany "")) eq_refl)
    as [_ [_ L]].
  vm_compute in L. discriminate.
Qed.

(** C3, amended.  A form whose company field is empty does not pass the
    [required] check: [handleSubmit] is not entered, no request goes to the
    backend, and the page state, log included, stays exactly as it was; so
    no trace line is emitted, and the log is empty whenever it was empty. *)
Theorem empty_company_is_not_submitted (validUrl : string -> bool) (s : State) :
  company (form s) = "" ->
  submitForm validUrl s = (None, s) /\
  (logLines s = VArr [] -> logLines (snd (submitForm validUrl s)) = VArr []).
Proof.
  intros H.
  assert (E : submitForm validUrl s = (None, s)).
  { unfold submitForm, formValid. rewrite H. simpl.
    destruct (isSubmitting s); reflexivity. }
  split; [exact E |]. rewrite E. auto.
Qed.

Lemma empty_company_is_not_submitted_witness :
  submitForm Sample.any_url (step initialState (Change FCompany "")) =
    (None, step initialState (Change FCompany "")) /\
  (logLines (step initialState (Change FCompany "")) = VArr [] ->
   logLines (snd (submitForm Sample.any_url (step initialState (Change FCompany ""))))
     = VArr []).
Proof.
  apply (empty_company_is_not_submitted Sample.any_url
           (step initialState (Change FCompany ""))).
  reflexivity.
Defined.

End AppFacts.

(** ** [runAgent] *)

Module ApiFacts.
Import Js Api.

(** C10, as stated, fails: a body that parses and has an empty [detail]
    gives the fixed message, not the (empty) [detail]. *)
Lemma empty_detail_counterexample :
  ~ (forall (fetch : Request App.Form -> fetched) (payload : App.Form)
            (data : val) (t : string),
       fetch (mkRequest ("http://localhost:8000" ++ "/api/run") "POST"
                        "application/json" payload)
         = Response false (Ok data) ->
       get data "detail" = Ok (Some (VStr t)) ->
       runAgent "http://localhost:8000" fetch payload = Throw (mkError t)).
Proof.
  intros H.
  specialize (H (Sample.refusal (VStr "")) App.initialForm
                (VObj [("detail", VStr "")]) "" eq_refl eq_refl).
  vm_compute in H. discriminate.
Qed.

(** C10, amended.  Given the response [fetch] resolves with: when it is
    [ok], [runAgent] ends as [response.json()] does, so it returns the
    parsed body (and throws the parse error when the body is not JSON);
    [runAgent] returns a value only in that case.  When it is not [ok] and
    the body parses to an object with a truthy [detail], [runAgent] throws
    an Error whose message is that [detail] converted to a string (a
    non-empty string [detail] is the message itself), or the TypeError of
    the conversion when the [detail] cannot be converted.  In every other
    case that is not [ok] (unparsable body, [null], a non-object, no
    [detail], or a falsy [detail]: empty string, zero, false, null) it
    throws an Error with the message "Failed to reach agent.". *)
Theorem runAgent_outcome {P : Type} (base : string) (fetch : Request P -> fetched)
    (payload : P) (ok : bool) (body : result val) :
  fetch (mkRequest (base ++ "/api/run") "POST" "application/json" payload)
    = Response ok body ->
  (ok = true -> runAgent base fetch payload = body) /\
  (forall v, runAgent base fetch payload = Ok v -> ok = true /\ body = Ok v) /\
  (ok = false ->
   forall kvs d, body = Ok (VObj kvs) -> lookup "detail" kvs = Some d ->
     truthy d = true ->
     (forall m, to_string d = Ok m ->
        runAgent base fetch payload = Throw (mkError m)) /\
     (forall e, to_string d = Throw e ->
        runAgent base fetch payload = Throw e)) /\
  (ok = false ->
   forall t, body = Ok (VObj [("detail", VStr t)]) -> t <> "" ->
     runAgent base fetch payload = Throw (mkError t)) /\
  (ok = false ->
   (forall kvs d, body = Ok (VObj kvs) -> lookup "detail" kvs = Some d ->
      truthy d = false) ->
   runAgent base fetch payload = Throw (mkError "Failed to reach agent.")).
Proof.
  intros F. unfold runAgent. rewrite F.
  split; [| split; [| split; [| split]]].
  - intros ->. reflexivity.
  - intros v. destruct ok; simpl; [auto |].
    destruct (to_string (failure_detail body)); discriminate.
  - intros -> kvs d -> L T.
    assert (D : failure_detail (Ok (VObj kvs)) = d).
    { unfold failure_detail, get, or_else. rewrite L, T. reflexivity. }
    cbn [negb]. rewrite D.
    split; intros x Hx; rewrite Hx; reflexivity.
  - intros -> t -> N. simpl. unfold failure_detail. simpl.
    destruct (t =? "") eqn:E; [apply String.eqb_eq in E; contradiction |].
    reflexivity.
  - intros -> A. simpl. unfold failure_detail.
    destruct body as [e | data]; [reflexivity |].
    destruct data as [| b | n | t | l | kvs]; try reflexivity.
    unfold get, or_else.
    destruct (lookup "detail" kvs) as [d |] eqn:L; [| reflexivity].
    rewrite (A kvs d eq_refl L). reflexivity.
Qed.

Lemma runAgent_outcome_witness :
  (false = true ->
   runAgent "http://localhost:8000" (Sample.refusal (VStr "quota exceeded"))
            App.initialForm = Ok (VObj [("detail", VStr "quota exceeded")])) /\
  (forall v,
     runAgent "http://localhost:8000" (Sample.refusal (VStr "quota exceeded"))
              App.initialForm = Ok v ->
     false = true /\ Ok (VObj [("detail", VStr "quota exceeded")]) = Ok v) /\
  (false = false ->
   forall kvs d,
     Ok (VObj [("detail", VStr "quota exceeded")]) = Ok (VObj kvs) ->
     lookup "detail" kvs = Some d ->
     truthy d = true ->
     (forall m, to_string d = Ok m ->
        runAgent "http://localhost:8000" (Sample.refusal (VStr "quota exceeded"))
                 App.initialForm = Throw (mkError m)) /\
     (forall e, to_string d = Throw e ->
        runAgent "http://localhost:8000" (Sample.refusal (VStr "quota exceeded"))
                 App.initialForm = Throw e)) /\
  (false = false ->
   forall t,
     Ok (VObj [("detail", VStr "quota exceeded")]) = Ok (VObj [("detail", VStr t)]) ->
     t <> "" ->
     runAgent "http://localhost:8000" (Sample.refusal (VStr "quota exceeded"))
              App.initialForm = Throw (mkError t)) /\
  (false = false ->
   (forall kvs d,
      Ok (VObj [("detail", VStr "quota exceeded")]) = Ok (VObj kvs) ->
      lookup "detail" kvs = Some d -> truthy d = false) ->
   runAgent "http://localhost:8000" (Sample.refusal (VStr "quota exceeded"))
            App.initialForm = Throw (mkError "Failed to reach agent.")).
Proof.
  apply (runAgent_outcome "http://localhost:8000"
           (Sample.refusal (VStr "quota exceeded")) App.initialForm false
           (Ok (VObj [("detail", VStr "quota exceeded")]))).
  reflexivity.
Defined.

End ApiFacts.

(** ** The workflow engine *)

Module WorkflowFacts.
Import Workflow.

Lemma append_fresh label text (ctx : ResearchContext) :
  ~ In label (map fst ctx) ->
  append label text ctx = (ctx ++ [(label, text)])%list.
Proof.
  induction ctx as [| [l t] rest IH]; simpl; intros N.
  - reflexivity.
  - destruct (l =? label) eqn:E.
    + apply String.eqb_eq in E. exfalso. apply N. left. exact E.
    + rewrite IH; [reflexivity |]. intros I. apply N. right. exact I.
Qed.

Lemma string_app_assoc (a b c : string) : (a ++ b) ++ c = a ++ (b ++ c).
Proof.
  induction a as [| x a IH]; simpl; [reflexivity | rewrite IH; reflexivity].
Qed.

Lemma string_app_nil_r (a : string) : a ++ "" = a.
Proof.
  induction a as [| x a IH]; simpl; [reflexivity | rewrite IH; reflexivity].
Qed.

Lemma render_app header budget (a b : ResearchContext) :
  renderForPrompt header budget (a ++ b)%list =
  renderForPrompt header budget a ++ renderForPrompt header budget b.
Proof.
  induction a as [| e a IH]; simpl.
  - reflexivity.
  - rewrite IH, string_app_assoc. reflexivity.
Qed.

(** The merge does not depend on which query completed first. *)
Lemma searchStage_order maxResults format noResults line_failed line_searched
    (rn ro : Reply) (r : WorkflowRun) :
  searchStage maxResults format noResults line_failed line_searched
              [(News, rn); (About, ro)] r =
  searchStage maxResults format noResults line_failed line_searched
              [(About, ro); (News, rn)] r.
Proof. reflexivity. Qed.

(** C6.  A run suspended in [AwaitingApproval] that is given a decision
    with approved = false moves to [Rejected] with outcome [rejected] and
    the draft of the Draft Stage untouched (an edited draft that came with
    the decision is ignored); [Rejected] is terminal: the Send Stage
    refuses the run, no decision applies any more, and whatever is asked of
    the controller afterwards, the run stays as it is and the Send Stage is
    executed zero times. *)
Theorem rejection_is_terminal (line_approved line_rejected line_sent : string)
    (r : WorkflowRun) (edited : option string) :
  stage r = AwaitingApproval ->
  exists r',
    deliver line_approved line_rejected (mkDecision false edited) r = Some r' /\
    stage r' = Rejected /\
    outcome r' = rejected /\
    emailDraft r' = emailDraft r /\
    send line_sent r' = None /\
    (forall d, deliver line_approved line_rejected d r' = None) /\
    (forall acts,
       drive line_approved line_rejected line_sent
             (Decide (mkDecision false edited) :: acts) r 0 = (r', 0)).
Proof.
  intros H. unfold deliver. rewrite H. simpl.
  eexists. split; [reflexivity |].
  repeat split.
  intros acts. unfold perform, deliver. rewrite H. simpl.
  induction acts as [| a acts IH]; [reflexivity |].
  destruct a; simpl; exact IH.
Qed.

Lemma rejection_is_terminal_witness :
  exists r',
    deliver "approved" "rejected" (mkDecision false (Some "edited")) Sample.awaiting
      = Some r' /\
    stage r' = Rejected /\
    outcome r' = rejected /\
    emailDraft r' = emailDraft Sample.awaiting /\
    send "sent" r' = None /\
    (forall d, deliver "approved" "rejected" d r' = None) /\
    (forall acts,
       drive "approved" "rejected" "sent"
             (Decide (mkDecision false (Some "edited")) :: acts) Sample.awaiting 0
         = (r', 0)).
Proof.
  apply (rejection_is_terminal "approved" "rejected" "sent" Sample.awaiting
           (Some "edited")).
  reflexivity.
Defined.

(** C7.  For a news result list and an overview result list, the Search
    Stage files the same context whether the news query or the overview
    query completed first; in a run that has no search entry yet, the
    news entry is filed right before the overview entry, and
    [renderForPrompt] writes the news entry (header, then text cut to its
    budget) before the overview entry, after what the context already
    held. *)
Theorem news_entry_before_overview_entry
    (header : string -> string) (budget : string -> nat) (maxResults : nat)
    (format : list Hit -> string) (noResults : string)
    (line_failed line_searched : Query -> string)
    (r : WorkflowRun) (hn ho : list Hit) :
  ~ In "search:news" (map fst (context r)) ->
  ~ In "search:about" (map fst (context r)) ->
  let stageOn completed :=
    searchStage maxResults format noResults line_failed line_searched completed r in
  let newsText := text_of_hits maxResults format noResults hn in
  let aboutText := text_of_hits maxResults format noResults ho in
  stageOn [(About, Hits ho); (News, Hits hn)] = stageOn [(News, Hits hn); (About, Hits ho)] /\
  context (stageOn [(News, Hits hn); (About, Hits ho)]) =
    (context r ++ [("search:news", newsText); ("search:about", aboutText)])%list /\
  renderForPrompt header budget (context (stageOn [(About, Hits ho); (News, Hits hn)])) =
    renderForPrompt header budget (context r)
    ++ (header "search:news" ++ truncate (budget "search:news") newsText)
    ++ (header "search:about" ++ truncate (budget "search:about") aboutText).
Proof.
  intros Hn Ha stageOn newsText aboutText.
  assert (C : context (stageOn [(News, Hits hn); (About, Hits ho)]) =
              (context r ++ [("search:news", newsText); ("search:about", aboutText)])%list).
  { unfold stageOn, searchStage, merge_query. simpl.
    fold newsText aboutText.
    rewrite (append_fresh "search:news" newsText (context r) Hn).
    rewrite append_fresh.
    - rewrite <- app_assoc. reflexivity.
    - rewrite map_app, in_app_iff. simpl.
      intros [I | [I | []]]; [exact (Ha I) | discriminate]. }
  split; [reflexivity |]. split; [exact C |].
  change (stageOn [(About, Hits ho); (News, Hits hn)])
    with (stageOn [(News, Hits hn); (About, Hits ho)]).
  rewrite C, render_app. simpl. unfold render_entry. simpl.
  rewrite string_app_nil_r. reflexivity.
Qed.

Lemma news_entry_before_overview_entry_witness :
  let stageOn completed :=
    searchStage 5 Sample.format "(no results)" Sample.line Sample.line completed
                Sample.fresh in
  let newsText := text_of_hits 5 Sample.format "(no results)" [Sample.newsHit] in
  let aboutText := text_of_hits 5 Sample.format "(no results)" [Sample.aboutHit] in
  stageOn [(About, Hits [Sample.aboutHit]); (News, Hits [Sample.newsHit])] =
    stageOn [(News, Hits [Sample.newsHit]); (About, Hits [Sample.aboutHit])] /\
  context (stageOn [(News, Hits [Sample.newsHit]); (About, Hits [Sample.aboutHit])]) =
    (context Sample.fresh
     ++ [("search:news", newsText); ("search:about", aboutText)])%list /\
  renderForPrompt Sample.header Sample.budget
      (context (stageOn [(About, Hits [Sample.aboutHit]); (News, Hits [Sample.newsHit])])) =
    renderForPrompt Sample.header Sample.budget (context Sample.fresh)
    ++ (Sample.header "search:news" ++ truncate (Sample.budget "search:news") newsText)
    ++ (Sample.header "search:about" ++ truncate (Sample.budget "search:about") aboutText).
Proof.
  apply (news_entry_before_overview_entry Sample.header Sample.budget 5
           Sample.format "(no results)" Sample.line Sample.line Sample.fresh
           [Sample.newsHit] [Sample.aboutHit]).
  - simpl. intros [].
  - simpl. intros [].
Defined.

End WorkflowFacts.

(** * Further properties of the front end *)

(** ** [trim] and [replace] *)

Module TextMore.
Import Text Pred.

Lemma append_nil_right (a : string) : a ++ "" = a.
Proof.
  induction a as [| x a IH]; simpl; [reflexivity | rewrite IH; reflexivity].
Qed.

Lemma rev_append_length (s acc : string) :
  String.length (rev_append s acc) = (String.length s + String.length acc)%nat.
Proof.
  revert acc. induction s as [| c s IH]; intros acc; simpl.
  - reflexivity.
  - rewrite IH. simpl. lia.
Qed.

Lemma rev_empty (s : string) : rev s = "" -> s = "".
Proof.
  intros H. pose proof (rev_append_length s "") as L.
  fold (rev s) in L. rewrite H in L. simpl in L.
  destruct s; [reflexivity | simpl in L; lia].
Qed.

Lemma rev_append_twice (x a b : string) :
  rev_append (rev_append x a) b = rev_append a (x ++ b).
Proof.
  revert a b. induction x as [| c x IH]; intros a b; simpl.
  - reflexivity.
  - rewrite IH. reflexivity.
Qed.

Lemma rev_involutive (x : string) : rev (rev x) = x.
Proof.
  unfold rev. rewrite rev_append_twice. simpl. apply append_nil_right.
Qed.

(** A scan that eats its whole input was given white space only. *)
Lemma strip_empty p2 p3 (n : nat) :
  forall s, (String.length s <= n)%nat -> strip p2 p3 s = "" -> BlankBy p2 p3 s.
Proof.
  induction n as [| n IH]; intros s L H.
  - destruct s; [constructor | simpl in L; lia].
  - destruct s as [| c1 r1]; [constructor |].
    simpl in L. cbn [strip] in H.
    destruct (ws1 c1) eqn:W1.
    + apply BlankBy_1; [exact W1 |]. apply IH; [lia | exact H].
    + destruct r1 as [| c2 r2]; [discriminate |].
      simpl in L.
      destruct (p2 c1 c2) eqn:W2.
      * apply BlankBy_2; [exact W2 |]. apply IH; [lia | exact H].
      * destruct r2 as [| c3 r3]; [discriminate |].
        simpl in L.
        destruct (p3 c1 c2 c3) eqn:W3; [| discriminate].
        apply BlankBy_3; [exact W3 |]. apply IH; [lia | exact H].
Qed.

(** Scanning what a scan left changes nothing. *)
Lemma strip_again p2 p3 (n : nat) :
  forall s, (String.length s <= n)%nat ->
            strip p2 p3 (strip p2 p3 s) = strip p2 p3 s.
Proof.
  induction n as [| n IH]; intros s L.
  - destruct s; [reflexivity | simpl in L; lia].
  - destruct s as [| c1 r1]; [reflexivity |].
    simpl in L.
    assert (E : strip p2 p3 (String c1 r1) = strip p2 p3 (String c1 r1)) by reflexivity.
    cbn [strip] in E |- *.
    destruct (ws1 c1) eqn:W1.
    + apply IH. lia.
    + destruct r1 as [| c2 r2].
      * cbn [strip]. rewrite W1. reflexivity.
      * simpl in L. destruct (p2 c1 c2) eqn:W2.
        -- apply IH. lia.
        -- destruct r2 as [| c3 r3].
           ++ cbn [strip]. rewrite W1, W2. reflexivity.
           ++ simpl in L. destruct (p3 c1 c2 c3) eqn:W3.
              ** apply IH. lia.
              ** cbn [strip]. rewrite W1, W2, W3. reflexivity.
Qed.

Lemma blankBy_blank s : BlankBy ws2 ws3 s -> Blank s.
Proof.
  induction 1; [apply Blank_nil | apply Blank_1 | apply Blank_2 | apply Blank_3];
    assumption.
Qed.

(** White space met by the scan from the end is white space of the string. *)
Lemma blankBy_rev (y : string) :
  BlankBy (fun a b => ws2 b a) (fun a b c => ws3 c b a) y ->
  forall acc, Blank acc -> Blank (rev_append y acc).
Proof.
  induction 1 as [| c s Hc _ IH | c1 c2 s Hc _ IH | c1 c2 c3 s Hc _ IH];
    intros acc B; simpl.
  - exact B.
  - apply IH. apply Blank_1; assumption.
  - apply IH. apply Blank_2; assumption.
  - apply IH. apply Blank_3; assumption.
Qed.

Lemma trimEnd_empty (x : string) : trimEnd x = "" -> Blank x.
Proof.
  unfold trimEnd. intros H. apply rev_empty in H.
  apply (strip_empty _ _ (String.length (rev x)) (rev x) (le_n _)) in H.
  rewrite <- (rev_involutive x). unfold rev at 1.
  apply blankBy_rev; [exact H | apply Blank_nil].
Qed.

Lemma trim_empty_blank (s : string) : trim s = "" -> Blank s.
Proof.
  unfold trim. intros H.
  assert (B : Blank (trimStart s)) by (apply trimEnd_empty; exact H).
  apply TextFacts.trimStart_blank in B.
  unfold trimStart in B |- *.
  rewrite (strip_again ws2 ws3 (String.length s) s (le_n _)) in B.
  apply blankBy_blank.
  apply (strip_empty ws2 ws3 (String.length s) s (le_n _)). exact B.
Qed.



End TextMore.

(** ** Handlers *)

Module AppMore.
Import Js App View Pred.

Lemma trim_eqb_blank (t : string) : (Text.trim t =? "") = true <-> Text.Blank t.
Proof.
  split.
  - intros H. apply String.eqb_eq in H. apply TextMore.trim_empty_blank. exact H.
  - intros B. rewrite (TextFacts.trim_blank t B). reflexivity.
Qed.

(** What [handleSend] leaves in place, whether it completes or throws. *)
Lemma handleSend_keeps (s : State) :
  form (step s Send) = form s /\
  logLines (step s Send) = logLines s /\
  summary (step s Send) = summary s /\
  emailDraft (step s Send) = emailDraft s /\
  error (step s Send) = error s /\
  isSubmitting (step s Send) = isSubmitting s.
Proof.
  unfold step, handler.
  destruct (emailDraft s) as [| b | n | t | l | kvs] eqn:E;
    try (destruct (AppFacts.handleSend_throws s) as [x Hx];
         [intros t' Ht'; rewrite E in Ht'; discriminate
         | rewrite Hx; simpl; rewrite E; repeat split]).
  rewrite (AppFacts.handleSend_string s t E).
  destruct (Text.trim t =? ""); simpl; rewrite E; repeat split.
Qed.

(** X1.  On a draft that is a string, [handleSend] marks the run [sent]
    exactly when the draft has a character that is not white space, and it
    only leaves the run-the-agent-first notice exactly when the draft is
    empty or all white space; the status, log and summary play no part. *)
Theorem send_happens_iff_draft_not_blank (s : State) (t : string) :
  emailDraft s = VStr t ->
  (handleSend s = (Ok tt, setStatus sent (setSendMessage mock_send_complete s))
   <-> ~ Text.Blank t) /\
  (handleSend s = (Ok tt, setSendMessage nothing_to_send s) <-> Text.Blank t).
Proof.
  intros E. rewrite (AppFacts.handleSend_string s t E).
  destruct (Text.trim t =? "") eqn:T.
  - assert (B : Text.Blank t) by (apply trim_eqb_blank; exact T).
    split; split.
    + intros H. inversion H.
    + intros N. contradiction.
    + intros _. exact B.
    + reflexivity.
  - assert (N : ~ Text.Blank t).
    { intros B. apply trim_eqb_blank in B. rewrite B in T. discriminate. }
    split; split.
    + intros _. exact N.
    + reflexivity.
    + intros H. inversion H.
    + intros B. contradiction.
Qed.

Lemma send_happens_iff_draft_not_blank_witness :
  (handleSend Sample.after_run =
     (Ok tt, setStatus sent (setSendMessage mock_send_complete Sample.after_run))
   <-> ~ Text.Blank "Hello Acme") /\
  (handleSend Sample.after_run =
     (Ok tt, setSendMessage nothing_to_send Sample.after_run)
   <-> Text.Blank "Hello Acme").
Proof.
  apply (send_happens_iff_draft_not_blank Sample.after_run "Hello Acme").
  reflexivity.
Defined.

(** X2.  Whenever the Approve button is disabled (the draft is falsy),
    running [handleSend] all the same would not mark the run [sent]: the
    status stays what it was. *)
Theorem disabled_send_cannot_send (s : State) :
  sendDisabled s = true ->
  status (step s Send) = status s.
Proof.
  unfold sendDisabled, step, handler. intros D.
  destruct (emailDraft s) as [| b | n | t | l | kvs] eqn:E;
    try (destruct (AppFacts.handleSend_throws s) as [x Hx];
         [intros t' Ht'; rewrite E in Ht'; discriminate
         | rewrite Hx; reflexivity]).
  rewrite (AppFacts.handleSend_string s t E).
  simpl in D. apply negb_true_iff in D. apply negb_false_iff in D.
  apply String.eqb_eq in D. subst t. reflexivity.
Qed.

Lemma disabled_send_cannot_send_witness :
  status (step initialState Send) = status initialState.
Proof.
  apply (disabled_send_cannot_send initialState). reflexivity.
Defined.

(** X3.  [handleSend] never touches the form, the trace log, the summary,
    the draft, the error or the submitting flag, whether it sends, refuses
    or throws. *)
Theorem send_leaves_results_alone (s : State) :
  form (step s Send) = form s /\
  logLines (step s Send) = logLines s /\
  summary (step s Send) = summary s /\
  emailDraft (step s Send) = emailDraft s /\
  error (step s Send) = error s /\
  isSubmitting (step s Send) = isSubmitting s.
Proof.
  unfold step, handler.
  destruct (emailDraft s) as [| b | n | t | l | kvs] eqn:E;
    try (destruct (AppFacts.handleSend_throws s) as [x Hx];
         [intros t' Ht'; rewrite E in Ht'; discriminate
         | rewrite Hx; simpl; rewrite E; repeat split]).
  rewrite (AppFacts.handleSend_string s t E).
  destruct (Text.trim t =? ""); simpl; rewrite E; repeat split.
Qed.


(** X5.  After typing [v] into an input, that input shows [v] and every
    other input shows what it showed before. *)
Theorem typed_value_is_shown (s : State) (n m : field) (v : string) :
  field_eqb m n = false ->
  fieldValue n (form (step s (Change n v))) = v /\
  fieldValue m (form (step s (Change n v))) = fieldValue m (form s).
Proof.
  intros H. unfold step, handler, handleChange, modify. simpl.
  destruct n, m; simpl in H; try discriminate; split; reflexivity.
Qed.

Lemma typed_value_is_shown_witness :
  fieldValue FUrl (form (step initialState (Change FUrl "https://acme.example")))
    = "https://acme.example" /\
  fieldValue FCompany (form (step initialState (Change FUrl "https://acme.example")))
    = fieldValue FCompany (form initialState).
Proof.
  apply (typed_value_is_shown initialState FUrl FCompany "https://acme.example").
  reflexivity.
Defined.

Lemma form_event_keeps (s : State) (e : event) :
  formEvent e = true ->
  logLines (step s e) = logLines s /\
  summary (step s e) = summary s /\
  emailDraft (step s e) = emailDraft s /\
  status (step s e) = status s /\
  error (step s e) = error s /\
  sendMessage (step s e) = sendMessage s /\
  isSubmitting (step s e) = isSubmitting s.
Proof.
  destruct e; simpl; intros H; try discriminate; repeat split.
Qed.

(** X6.  Editing the form, in any number of steps and with Reset among
    them, changes nothing but the form: the trace log, summary, draft,
    status, error, send message and submitting flag stay as they were; and
    a Reset at the end leaves the initial form. *)
Theorem form_editing_keeps_results (s : State) (evs : list event) :
  forallb formEvent evs = true ->
  logLines (run s evs) = logLines s /\
  summary (run s evs) = summary s /\
  emailDraft (run s evs) = emailDraft s /\
  status (run s evs) = status s /\
  error (run s evs) = error s /\
  sendMessage (run s evs) = sendMessage s /\
  isSubmitting (run s evs) = isSubmitting s /\
  form (run s (evs ++ [Reset])%list) = initialForm.
Proof.
  intros H.
  assert (A : logLines (run s evs) = logLines s /\
              summary (run s evs) = summary s /\
              emailDraft (run s evs) = emailDraft s /\
              status (run s evs) = status s /\
              error (run s evs) = error s /\
              sendMessage (run s evs) = sendMessage s /\
              isSubmitting (run s evs) = isSubmitting s).
  { revert s. induction evs as [| e evs IH]; intros s.
    - repeat split.
    - simpl in H. apply andb_prop in H. destruct H as [He Hr].
      change (run s (e :: evs)) with (run (step s e) evs).
      destruct (IH Hr (step s e)) as (A1 & A2 & A3 & A4 & A5 & A6 & A7).
      destruct (form_event_keeps s e He) as (B1 & B2 & B3 & B4 & B5 & B6 & B7).
      rewrite A1, A2, A3, A4, A5, A6, A7. repeat split; assumption. }
  destruct A as (A1 & A2 & A3 & A4 & A5 & A6 & A7).
  repeat split; try assumption.
  rewrite AppFacts.run_snoc. reflexivity.
Qed.

Lemma form_editing_keeps_results_witness :
  logLines (run Sample.after_run [Change FCompany "Globex"; Reset; Change FModel "m2"])
    = logLines Sample.after_run /\
  summary (run Sample.after_run [Change FCompany "Globex"; Reset; Change FModel "m2"])
    = summary Sample.after_run /\
  emailDraft (run Sample.after_run [Change FCompany "Globex"; Reset; Change FModel "m2"])
    = emailDraft Sample.after_run /\
  status (run Sample.after_run [Change FCompany "Globex"; Reset; Change FModel "m2"])
    = status Sample.after_run /\
  error (run Sample.after_run [Change FCompany "Globex"; Reset; Change FModel "m2"])
    = error Sample.after_run /\
  sendMessage (run Sample.after_run [Change FCompany "Globex"; Reset; Change FModel "m2"])
    = sendMessage Sample.after_run /\
  isSubmitting (run Sample.after_run [Change FCompany "Globex"; Reset; Change FModel "m2"])
    = isSubmitting Sample.after_run /\
  form (run Sample.after_run
            ([Change FCompany "Globex"; Reset; Change FModel "m2"] ++ [Reset])%list)
    = initialForm.
Proof.
  apply (form_editing_keeps_results Sample.after_run
           [Change FCompany "Globex"; Reset; Change FModel "m2"]).
  reflexivity.
Defined.

(** What one handler does to the pair of [status] and [isSubmitting]. *)
Lemma step_running (s : State) (e : event) :
  (status s = running -> isSubmitting s = true) ->
  status (step s e) = running -> isSubmitting (step s e) = true.
Proof.
  intros I.
  destruct e as [name value | | | r | t | | now].
  - exact I.
  - exact I.
  - reflexivity.
  - intros H. destruct (AppFacts.resume_status r s) as [E | E];
      unfold step, handler in H; rewrite E in H; discriminate.
  - exact I.
  - destruct (handleSend_keeps s) as (_ & _ & _ & _ & _ & K). rewrite K.
    unfold step, handler.
    destruct (emailDraft s) as [| b | n | t | l | kvs] eqn:E;
      try (destruct (AppFacts.handleSend_throws s) as [x Hx];
           [intros t' Ht'; rewrite E in Ht'; discriminate
           | rewrite Hx; exact I]).
    rewrite (AppFacts.handleSend_string s t E).
    destruct (Text.trim t =? ""); simpl; [exact I | discriminate].
  - rewrite AppFacts.step_download. exact I.
Qed.

(** X7.  However handlers are run from the initial state, the status is
    [running] (the pill reads "Researching") only while [isSubmitting] is
    set, that is while the submit button is disabled. *)
Theorem running_only_while_submitting (evs : list event) :
  status (run initialState evs) = running ->
  isSubmitting (run initialState evs) = true.
Proof.
  induction evs as [| e evs IH] using rev_ind.
  - discriminate.
  - rewrite AppFacts.run_snoc. apply step_running. exact IH.
Qed.

Lemma running_only_while_submitting_witness :
  isSubmitting (run initialState [Change FCompany "Globex"; Submit; Edit "x"]) = true.
Proof.
  apply (running_only_while_submitting [Change FCompany "Globex"; Submit; Edit "x"]).
  reflexivity.
Defined.

(** How the rest of [handleSubmit] ends, for any outcome of the call. *)
Lemma resume_outcome (r : result val) (s : State) :
  exists s',
    handleSubmit_resume r s = (Ok tt, s') /\
    isSubmitting s' = false /\
    (status s' = ready /\ error s' = error s \/ status s' = idle /\ error s' <> "") /\
    form s' = form s /\
    sendMessage s' = sendMessage s.
Proof.
  destruct r as [e | v].
  - rewrite AppFacts.resume_throw. eexists. split; [reflexivity |].
    simpl. repeat split. right. split; [reflexivity |].
    apply AppFacts.shown_error_nonempty.
  - destruct v as [| b | n | t | l | kvs];
      try (eexists; split; [reflexivity |]; simpl; repeat split;
           left; split; reflexivity).
    rewrite AppFacts.resume_null. eexists. split; [reflexivity |].
    simpl. repeat split. right. split; [reflexivity |].
    apply AppFacts.shown_error_nonempty.
Qed.

(** X8.  Whatever the awaited call settles with (a reply of any shape, or
    an exception), the rest of [handleSubmit] completes without throwing,
    clears [isSubmitting], and ends either [ready] with the error untouched
    or [idle] with a non-empty error; it never leaves [sent] or [running],
    and it touches neither the form nor the send message. *)
Theorem settling_always_completes (r : result val) (s : State) :
  exists s',
    handleSubmit_resume r s = (Ok tt, s') /\
    isSubmitting s' = false /\
    (status s' = ready /\ error s' = error s \/ status s' = idle /\ error s' <> "") /\
    form s' = form s /\
    sendMessage s' = sendMessage s.
Proof.
  destruct r as [e | v].
  - rewrite AppFacts.resume_throw. eexists. split; [reflexivity |].
    simpl. repeat split. right. split; [reflexivity |].
    apply AppFacts.shown_error_nonempty.
  - destruct v as [| b | n | t | l | kvs];
      try (eexists; split; [reflexivity |]; simpl; repeat split;
           left; split; reflexivity).
    rewrite AppFacts.resume_null. eexists. split; [reflexivity |].
    simpl. repeat split. right. split; [reflexivity |].
    apply AppFacts.shown_error_nonempty.
Qed.

(** [handleSend] keeps the status or makes it [sent]. *)
Lemma send_status (s : State) :
  status (step s Send) = status s \/ status (step s Send) = sent.
Proof.
  unfold step, handler.
  destruct (emailDraft s) as [| b | n | t | l | kvs] eqn:E;
    try (destruct (AppFacts.handleSend_throws s) as [x Hx];
         [intros t' Ht'; rewrite E in Ht'; discriminate
         | rewrite Hx; left; reflexivity]).
  rewrite (AppFacts.handleSend_string s t E).
  destruct (Text.trim t =? ""); [left | right]; reflexivity.
Qed.

(** A settled request whose reply gives a string draft leaves a string draft. *)
Lemma step_string_draft (s : State) (e : event) :
  stringDraft e ->
  (exists t, emailDraft s = VStr t) ->
  exists t, emailDraft (step s e) = VStr t.
Proof.
  intros W [t0 E0].
  destruct e as [name value | | | r | t | | now].
  - exists t0. exact E0.
  - exists t0. exact E0.
  - exists "". reflexivity.
  - destruct r as [e | v]; [exists t0; exact E0 |].
    destruct v as [| b | n | t | l | kvs];
      try (exists ""; reflexivity); [exists t0; exact E0 |].
    unfold step, handler. simpl.
    simpl in W.
    destruct (lookup "email_draft" kvs) as [d |] eqn:L; simpl.
    + destruct (truthy d) eqn:T.
      * destruct (W d eq_refl T) as [t Ht]. exists t. exact Ht.
      * exists "". reflexivity.
    + exists "". reflexivity.
  - exists t. reflexivity.
  - destruct (handleSend_keeps s) as (_ & _ & _ & K & _). exists t0.
    rewrite K. exact E0.
  - rewrite AppFacts.step_download. exists t0. exact E0.
Qed.

(** X9.  As long as every reply that settles a request carries an
    [email_draft] that is a string (or none, or a falsy one), the draft cell
    holds a string at every moment, so [handleSend] completes without
    throwing on every state that is reached. *)
Theorem string_drafts_keep_send_safe (evs : list event) :
  Forall stringDraft evs ->
  exists t s',
    emailDraft (run initialState evs) = VStr t /\
    handleSend (run initialState evs) = (Ok tt, s').
Proof.
  intros F.
  assert (D : exists t, emailDraft (run initialState evs) = VStr t).
  { induction evs as [| e evs IH] using rev_ind.
    - exists "". reflexivity.
    - apply Forall_app in F. destruct F as [F1 F2].
      rewrite AppFacts.run_snoc. apply step_string_draft.
      + inversion F2. assumption.
      + apply IH. exact F1. }
  destruct D as [t E]. exists t.
  rewrite (AppFacts.handleSend_string _ t E).
  destruct (Text.trim t =? ""); eexists; split; (exact E || reflexivity).
Qed.

Lemma string_drafts_keep_send_safe_witness :
  exists t s',
    emailDraft (run initialState [Submit; Settle (Ok Sample.reply); Edit "Hi"]) = VStr t /\
    handleSend (run initialState [Submit; Settle (Ok Sample.reply); Edit "Hi"]) = (Ok tt, s').
Proof.
  apply (string_drafts_keep_send_safe [Submit; Settle (Ok Sample.reply); Edit "Hi"]).
  repeat constructor.
  simpl. intros d H T. inversion H. subst d. exists "Hello Acme". reflexivity.
Defined.

(** The request [runAgent] hands to [fetch] for a payload. *)
Lemma runAgent_response {P : Type} base (fetch : Api.Request P -> Api.fetched)
    (payload : P) ok body :
  fetch (Api.mkRequest (base ++ "/api/run") "POST" "application/json" payload)
    = Api.Response ok body ->
  Api.runAgent base fetch payload =
    if negb ok then
      match to_string (Api.failure_detail body) with
      | Ok m => Throw (mkError m)
      | Throw e => Throw e
      end
    else body.
Proof. intros F. unfold Api.runAgent. rewrite F. reflexivity. Qed.

Lemma handleSubmit_unfold base fetch (s : State) :
  handleSubmit base fetch s =
    handleSubmit_resume (Api.runAgent base fetch (form s))
                        (snd (handleSubmit_begin s)).
Proof. reflexivity. Qed.

(** X10.  End to end: when the backend answers with a status that is not
    ok and a JSON object whose [detail] is a non-empty string, the page ends
    [idle] and shows exactly that string as its error. *)
Theorem backend_detail_is_shown base fetch (s : State) kvs (t : string) :
  fetch (Api.mkRequest (base ++ "/api/run") "POST" "application/json" (form s))
    = Api.Response false (Ok (VObj kvs)) ->
  lookup "detail" kvs = Some (VStr t) ->
  t <> "" ->
  error (snd (handleSubmit base fetch s)) = t /\
  status (snd (handleSubmit base fetch s)) = idle /\
  isSubmitting (snd (handleSubmit base fetch s)) = false.
Proof.
  intros F L N.
  assert (T : (t =? "") = false).
  { destruct (t =? "") eqn:E; [apply String.eqb_eq in E; contradiction | reflexivity]. }
  rewrite handleSubmit_unfold, (runAgent_response base fetch (form s) false _ F).
  assert (D : Api.failure_detail (Ok (VObj kvs)) = VStr t).
  { unfold Api.failure_detail, get, or_else. rewrite L. simpl. rewrite T. reflexivity. }
  rewrite D. cbn [negb to_string]. rewrite AppFacts.resume_throw.
  unfold shown_error. cbn [message setIsSubmitting setStatus setError snd error status isSubmitting].
  rewrite T. repeat split.
Qed.

Lemma backend_detail_is_shown_witness :
  error (snd (handleSubmit "http://localhost:8000"
                (Sample.refusal (VStr "quota exceeded")) Sample.after_run))
    = "quota exceeded" /\
  status (snd (handleSubmit "http://localhost:8000"
                 (Sample.refusal (VStr "quota exceeded")) Sample.after_run)) = idle /\
  isSubmitting (snd (handleSubmit "http://localhost:8000"
                       (Sample.refusal (VStr "quota exceeded")) Sample.after_run)) = false.
Proof.
  apply (backend_detail_is_shown "http://localhost:8000"
           (Sample.refusal (VStr "quota exceeded")) Sample.after_run
           [("detail", VStr "quota exceeded")] "quota exceeded").
  - reflexivity.
  - reflexivity.
  - discriminate.
Defined.

(** X11.  End to end: when the backend answers with a status that is not
    ok and a body that is not JSON, is [null], or is an object without
    [detail], the page ends [idle] and shows "Failed to reach agent.". *)
Theorem unreadable_failure_shows_default base fetch (s : State) (body : result val) :
  fetch (Api.mkRequest (base ++ "/api/run") "POST" "application/json" (form s))
    = Api.Response false body ->
  ((exists e, body = Throw e) \/ body = Ok VNull \/
   (exists kvs, body = Ok (VObj kvs) /\ lookup "detail" kvs = None)) ->
  error (snd (handleSubmit base fetch s)) = "Failed to reach agent." /\
  status (snd (handleSubmit base fetch s)) = idle.
Proof.
  intros F H.
  rewrite handleSubmit_unfold, (runAgent_response base fetch (form s) false _ F).
  assert (D : Api.failure_detail body = VStr Api.default_detail).
  { destruct H as [[e ->] | [-> | [kvs [-> L]]]]; try reflexivity.
    unfold Api.failure_detail, get, or_else. rewrite L. reflexivity. }
  rewrite D. cbn [negb to_string]. rewrite AppFacts.resume_throw. split; reflexivity.
Qed.

Lemma unreadable_failure_shows_default_witness :
  error (snd (handleSubmit "http://localhost:8000"
                (fun _ => Api.Response false (Throw (mkError "Unexpected token <")))
                initialState)) = "Failed to reach agent." /\
  status (snd (handleSubmit "http://localhost:8000"
                 (fun _ => Api.Response false (Throw (mkError "Unexpected token <")))
                 initialState)) = idle.
Proof.
  apply (unreadable_failure_shows_default "http://localhost:8000"
           (fun _ => Api.Response false (Throw (mkError "Unexpected token <")))
           initialState (Throw (mkError "Unexpected token <"))).
  - reflexivity.
  - left. exists (mkError "Unexpected token <"). reflexivity.
Defined.

(** X12.  End to end: when the backend answers ok with a JSON object, the
    page ends [ready] with no error and no send message, and the log,
    summary and draft are the object's [log], [summary] and [email_draft],
    each replaced by its empty default ([[]], the empty string) when it is
    missing or falsy; whatever a previous run had left is gone. *)
Theorem successful_run_shows_reply base fetch (s : State) kvs :
  fetch (Api.mkRequest (base ++ "/api/run") "POST" "application/json" (form s))
    = Api.Response true (Ok (VObj kvs)) ->
  handleSubmit base fetch s =
    (Ok tt,
     mkState (form s)
             (or_else (lookup "log" kvs) (VArr []))
             (or_else (lookup "summary" kvs) (VStr ""))
             (or_else (lookup "email_draft" kvs) (VStr ""))
             ready "" "" false).
Proof.
  intros F.
  rewrite handleSubmit_unfold, (runAgent_response base fetch (form s) true _ F).
  reflexivity.
Qed.

Lemma successful_run_shows_reply_witness :
  handleSubmit "http://localhost:8000"
               (fun _ => Api.Response true (Ok (VObj [("summary", VStr "S")])))
               Sample.after_run =
    (Ok tt,
     mkState (form Sample.after_run)
             (or_else (lookup "log" [("summary", VStr "S")]) (VArr []))
             (or_else (lookup "summary" [("summary", VStr "S")]) (VStr ""))
             (or_else (lookup "email_draft" [("summary", VStr "S")]) (VStr ""))
             ready "" "" false).
Proof.
  apply (successful_run_shows_reply "http://localhost:8000"
           (fun _ => Api.Response true (Ok (VObj [("summary", VStr "S")])))
           Sample.after_run [("summary", VStr "S")]).
  reflexivity.
Defined.

(** X13.  After a run that failed (with nothing typed meanwhile) the page
    shows none of the earlier results: the log, summary, draft and send
    message are empty, the Approve and Download buttons are disabled, and
    invoking [handleSend] leaves the status [idle]. *)
Theorem failed_run_shows_no_stale_results base fetch (s : State) (e : Error) :
  Api.runAgent base fetch (form s) = Throw e ->
  handleSubmit base fetch s =
    (Ok tt, mkState (form s) (VArr []) (VStr "") (VStr "") idle (shown_error e) "" false) /\
  sendDisabled (snd (handleSubmit base fetch s)) = true /\
  downloadDisabled (snd (handleSubmit base fetch s)) = true /\
  status (step (snd (handleSubmit base fetch s)) Send) = idle.
Proof.
  intros H. rewrite handleSubmit_unfold, H, AppFacts.resume_throw.
  repeat split.
Qed.

Lemma failed_run_shows_no_stale_results_witness :
  handleSubmit "http://localhost:8000" (Sample.refusal (VStr "quota exceeded"))
               Sample.after_run =
    (Ok tt, mkState (form Sample.after_run) (VArr []) (VStr "") (VStr "") idle
                    (shown_error (mkError "quota exceeded")) "" false) /\
  sendDisabled (snd (handleSubmit "http://localhost:8000"
                       (Sample.refusal (VStr "quota exceeded")) Sample.after_run)) = true /\
  downloadDisabled (snd (handleSubmit "http://localhost:8000"
                           (Sample.refusal (VStr "quota exceeded")) Sample.after_run)) = true /\
  status (step (snd (handleSubmit "http://localhost:8000"
                       (Sample.refusal (VStr "quota exceeded")) Sample.after_run)) Send)
    = idle.
Proof.
  apply (failed_run_shows_no_stale_results "http://localhost:8000"
           (Sample.refusal (VStr "quota exceeded")) Sample.after_run
           (mkError "quota exceeded")).
  reflexivity.
Defined.


(** A memo cell that holds what the title function gives for its
    dependency. *)
Lemma titles_from_sound_cell (forms : list Form) :
  forall cell,
    (forall m, cell = Some m ->
       memo_value m = heroTitleOf (mkForm "" "" (memo_dep m) "")) ->
    titles cell forms = map heroTitleOf forms.
Proof.
  induction forms as [| f rest IH]; intros cell S; [reflexivity |].
  cbn [titles map]. unfold heroTitle.
  destruct cell as [m |].
  - destruct (memo_dep m =? provider f) eqn:E.
    + apply String.eqb_eq in E.
      rewrite (S m eq_refl), E. f_equal. apply IH. exact S.
    + f_equal. apply IH. intros m' H. inversion H. reflexivity.
  - f_equal. apply IH. intros m' H. inversion H. reflexivity.
Qed.

(** X15.  The memoised [heroTitle] is never stale: across any succession of
    renders, each with its own form, the title shown is the one computed
    from that render's form; [form.provider] is all the title depends on. *)
Theorem memoised_title_is_never_stale (forms : list Form) :
  titles None forms = map heroTitleOf forms.
Proof.
  apply titles_from_sound_cell. intros m H. discriminate.
Qed.

(** X16.  The status pill tells the four statuses apart: two statuses with
    the same pill text, or the same pill class, are the same status. *)
Theorem status_pill_tells_statuses_apart (a b : Status) :
  pill_text (StatusPill a) = pill_text (StatusPill b) \/
  pill_class (StatusPill a) = pill_class (StatusPill b) ->
  a = b.
Proof.
  destruct a, b; simpl; intros [H | H]; try reflexivity; discriminate.
Qed.

Lemma status_pill_tells_statuses_apart_witness :
  sent = status (step Sample.after_run Send).
Proof.
  apply (status_pill_tells_statuses_apart sent (status (step Sample.after_run Send))).
  left. reflexivity.
Defined.

(** X20.  End to end, for a [detail] of any JSON type: when the backend
    answers with a status that is not ok and an object whose [detail] is
    truthy, the page ends [idle] and shows that [detail] converted to a
    string (a number in JavaScript's notation, as "1e+21"), "Failed to run
    agent." when that string is empty (as for the empty array), and the
    message of the TypeError when the [detail] cannot be converted. *)
Theorem truthy_detail_is_shown_as_text base fetch (s : State) kvs (d : val) :
  fetch (Api.mkRequest (base ++ "/api/run") "POST" "application/json" (form s))
    = Api.Response false (Ok (VObj kvs)) ->
  lookup "detail" kvs = Some d ->
  truthy d = true ->
  (forall m, to_string d = Ok m ->
     error (snd (handleSubmit base fetch s)) =
       (if m =? "" then "Failed to run agent." else m)) /\
  (forall e, to_string d = Throw e ->
     error (snd (handleSubmit base fetch s)) = shown_error e) /\
  status (snd (handleSubmit base fetch s)) = idle.
Proof.
  intros F L T.
  rewrite handleSubmit_unfold, (runAgent_response base fetch (form s) false _ F).
  assert (D : Api.failure_detail (Ok (VObj kvs)) = d).
  { unfold Api.failure_detail, get, or_else. rewrite L, T. reflexivity. }
  rewrite D. cbn [negb].
  destruct (to_string d) as [e0 | m0]; rewrite AppFacts.resume_throw;
    (split; [| split]); try reflexivity;
    intros x Hx; inversion Hx; reflexivity.
Qed.

Lemma truthy_detail_is_shown_as_text_witness :
  (forall m, to_string (VNum Sample.sextillion) = Ok m ->
     error (snd (handleSubmit "http://localhost:8000"
                   (Sample.refusal (VNum Sample.sextillion)) initialState)) =
       (if m =? "" then "Failed to run agent." else m)) /\
  (forall e, to_string (VNum Sample.sextillion) = Throw e ->
     error (snd (handleSubmit "http://localhost:8000"
                   (Sample.refusal (VNum Sample.sextillion)) initialState)) =
       shown_error e) /\
  status (snd (handleSubmit "http://localhost:8000"
                 (Sample.refusal (VNum Sample.sextillion)) initialState)) = idle.
Proof.
  apply (truthy_detail_is_shown_as_text "http://localhost:8000"
           (Sample.refusal (VNum Sample.sextillion)) initialState
           [("detail", VNum Sample.sextillion)] (VNum Sample.sextillion)).
  - reflexivity.
  - reflexivity.
  - reflexivity.
Defined.

(** X21.  A reply that is not [null] decides the log, summary, draft and
    status on its own: whatever the cells held when it arrived (results of
    an earlier run, text typed into the draft meanwhile, a [sent] status) is
    replaced, and the page is [ready]. *)
Theorem reply_replaces_what_was_there (s1 s2 : State) (v : val) :
  v <> VNull ->
  logLines (step s1 (Settle (Ok v))) = logLines (step s2 (Settle (Ok v))) /\
  summary (step s1 (Settle (Ok v))) = summary (step s2 (Settle (Ok v))) /\
  emailDraft (step s1 (Settle (Ok v))) = emailDraft (step s2 (Settle (Ok v))) /\
  status (step s1 (Settle (Ok v))) = ready /\
  error (step s1 (Settle (Ok v))) = error s1.
Proof.
  intros N. unfold step, handler.
  destruct (AppFacts.resume_value v s1 N) as (lg & sm & ed & G1 & G2 & G3 & H1).
  destruct (AppFacts.resume_value v s2 N) as (lg' & sm' & ed' & G1' & G2' & G3' & H2).
  rewrite H1, H2. simpl.
  rewrite G1 in G1'. rewrite G2 in G2'. rewrite G3 in G3'.
  inversion G1'. inversion G2'. inversion G3'. repeat split.
Qed.

Lemma reply_replaces_what_was_there_witness :
  logLines (step (run initialState [Submit; Edit "typed"; Send]) (Settle (Ok Sample.reply)))
    = logLines (step initialState (Settle (Ok Sample.reply))) /\
  summary (step (run initialState [Submit; Edit "typed"; Send]) (Settle (Ok Sample.reply)))
    = summary (step initialState (Settle (Ok Sample.reply))) /\
  emailDraft (step (run initialState [Submit; Edit "typed"; Send]) (Settle (Ok Sample.reply)))
    = emailDraft (step initialState (Settle (Ok Sample.reply))) /\
  status (step (run initialState [Submit; Edit "typed"; Send]) (Settle (Ok Sample.reply)))
    = ready /\
  error (step (run initialState [Submit; Edit "typed"; Send]) (Settle (Ok Sample.reply)))
    = error (run initialState [Submit; Edit "typed"; Send]).
Proof.
  apply (reply_replaces_what_was_there
           (run initialState [Submit; Edit "typed"; Send]) initialState Sample.reply).
  discriminate.
Defined.

End AppMore.

(** ** The page in the browser *)

Module PageFacts.
Import Js App Page.

Section Browser.

Variable validUrl : string -> bool.
Variable base : string.

Lemma inv_initial : Inv validUrl initialPage.
Proof.
  unfold Inv, initialPage. simpl.
  repeat split; try discriminate; try (intros H; congruence); auto.
Qed.

(** Each action keeps the invariant of the page. *)
Lemma inv_act (p : Page) (a : action) :
  Inv validUrl p -> Inv validUrl (act validUrl base p a).
Proof.
  destruct p as [s fl]. unfold Inv. simpl.
  intros (I1 & I2 & I3 & I4 & I5 & I6).
  destruct a as [name value | | | f | t | | now]; simpl.
  - repeat split; tauto || assumption.
  - repeat split; tauto || assumption.
  - unfold submitForm.
    destruct (isSubmitting s) eqn:B; simpl.
    { rewrite B. repeat split; tauto || assumption. }
    destruct (formValid validUrl (form s)) eqn:V; simpl.
    + assert (E : fl = []).
      { destruct fl as [| x fl']; [reflexivity |].
        assert (C : false = true) by (apply I2; discriminate). discriminate. }
      subst fl. simpl.
      repeat split; try discriminate; auto.
    + rewrite B. repeat split; tauto || assumption.
  - destruct fl as [| payload rest]; simpl.
    { repeat split; tauto || assumption. }
    assert (R : rest = []) by (destruct rest; [reflexivity | simpl in I1; lia]).
    subst rest.
    assert (B : isSubmitting s = true) by (apply I2; discriminate).
    destruct (AppMore.resume_outcome
                (Api.runAgent base (fun _ => f) payload) s)
      as (s' & H & J1 & J2 & _).
    unfold step, handler. rewrite H. simpl. rewrite J1.
    repeat split; try discriminate; auto.
    + intros C. destruct J2 as [[K _] | [K _]]; congruence.
    + intros C. destruct J2 as [[_ K] | [K _]]; [| congruence].
      rewrite K. apply I3. exact B.
  - repeat split; tauto || assumption.
  - destruct (sendDisabled s); simpl.
    { repeat split; tauto || assumption. }
    destruct (AppMore.handleSend_keeps s) as (_ & _ & _ & _ & K1 & K2).
    rewrite K1, K2.
    repeat split; try tauto; try assumption.
    + intros C. destruct (AppMore.send_status s) as [E | E];
        rewrite E in C; [tauto | discriminate].
    + intros C. destruct (AppMore.send_status s) as [E | E];
        rewrite E in C; [tauto | discriminate].
  - destruct (downloadDisabled s); simpl.
    { repeat split; tauto || assumption. }
    rewrite AppFacts.step_download.
    repeat split; tauto || assumption.
Qed.

Lemma inv_play (acts : list action) : Inv validUrl (play validUrl base initialPage acts).
Proof.
  induction acts as [| a acts IH] using rev_ind.
  - apply inv_initial.
  - unfold play. rewrite fold_left_app. simpl. apply inv_act. exact IH.
Qed.

(** X17.  Whatever the operator does on the page and whenever responses
    arrive, at most one request is in flight at any moment, and
    [isSubmitting] (the disabled submit button) is set exactly while one
    is: a second submit cannot start before the first has settled. *)
Theorem one_request_at_a_time (acts : list action) :
  (List.length (inflight (play validUrl base initialPage acts)) <= 1)%nat /\
  (isSubmitting (cells (play validUrl base initialPage acts)) = true <->
   inflight (play validUrl base initialPage acts) <> []).
Proof.
  destruct (inv_play acts) as (I1 & I2 & _). split; assumption.
Qed.

(** X18.  No request ever leaves the page with an empty company name, nor
    with a homepage that is neither empty nor a valid URL. *)
Theorem requests_carry_a_company (acts : list action) :
  Forall (fun f => company f <> "" /\ (url f = "" \/ validUrl (url f) = true))
         (inflight (play validUrl base initialPage acts)).
Proof.
  destruct (inv_play acts) as (_ & _ & _ & _ & _ & I6).
  eapply Forall_impl; [| exact I6].
  intros f V. unfold formValid in V. apply andb_prop in V. destruct V as [C U].
  split.
  - intros E. rewrite E in C. discriminate.
  - apply orb_prop in U. destruct U as [U | U]; [left | right; exact U].
    apply String.eqb_eq. exact U.
Qed.

(** X19.  On the page, an error message is never shown together with the
    "Ready for approval" or the "Researching" status. *)
Theorem ready_page_shows_no_error (acts : list action) :
  status (cells (play validUrl base initialPage acts)) = ready \/
  status (cells (play validUrl base initialPage acts)) = running ->
  error (cells (play validUrl base initialPage acts)) = "".
Proof.
  destruct (inv_play acts) as (_ & _ & I3 & I4 & I5 & _).
  intros [H | H]; auto.
Qed.

End Browser.

Lemma ready_page_shows_no_error_witness :
  error (cells (play Sample.any_url "http://localhost:8000" initialPage
                  [SubmitForm; Arrive (Api.Response false (Ok (VObj [("detail", VStr "busy")])));
                   SubmitForm; SubmitForm;
                   Arrive (Api.Response true (Ok Sample.reply))])) = "".
Proof.
  apply (ready_page_shows_no_error Sample.any_url "http://localhost:8000"
           [SubmitForm; Arrive (Api.Response false (Ok (VObj [("detail", VStr "busy")])));
            SubmitForm; SubmitForm;
            Arrive (Api.Response true (Ok Sample.reply))]).
  left. reflexivity.
Defined.

End PageFacts.

(** ** Number::toString on known values *)

Module JsFacts.
Import Js.

(** The doubles nearest 0.1 and 1.5, [10^21], [2^68], the least positive
    double, the least normal double, the greatest double and [2^53], as
    JavaScript prints them. *)
Lemma number_to_string_samples :
  map number_to_string
      [Sample.double 7205759403792794 (-56);
       Sample.double 6755399441055744 (-52);
       Sample.sextillion;
       Sample.double 4503599627370496 16;
       Sample.double 1 (-1074);
       Sample.double 4503599627370496 (-1074);
       Sample.double 9007199254740991 971;
       Sample.double 4503599627370496 1]
  = ["0.1"; "1.5"; "1e+21"; "295147905179352830000"; "5e-324";
     "2.2250738585072014e-308"; "1.7976931348623157e+308"; "9007199254740992"].
Proof. vm_compute. reflexivity. Qed.

(** An object with a member of its own named [toString] cannot be
    converted, alone or inside an array. *)
Lemma to_string_own_member (kvs : list (string * val)) (v : val) :
  to_string (VObj (("toString", v) :: kvs)) = Throw cannot_convert /\
  to_string (VArr [VStr "a"; VObj (("toString", v) :: kvs)]) = Throw cannot_convert.
Proof. split; reflexivity. Qed.

End JsFacts.
